(** * PassioGo: response normalisation of the transit-data client

    A shallow embedding of [passiogo/client.py] and [passiogo/models.py].
    Python objects decoded from JSON are values of type [value]; raising an
    exception is the [Raise] outcome of the [result] monad; each listing
    function is split into the request it sends and the normalisation of the
    reply it receives. *)

From Stdlib Require Import ZArith List String Ascii Bool Lia DecimalString.
From Stdlib Require Import Sorted.
Import ListNotations.

Set Warnings "-register-all".
Local Open Scope string_scope.
Local Open Scope list_scope.

(* ================================================================== *)
(** ** Python values and the builtins the client uses *)
(* ================================================================== *)

Module Py.

(** What [response.json()] can produce.  A dict keeps its insertion order
    and its keys are strings (JSON object keys).  A float is the binary
    rational [m * 2^e]; the non-finite constants [NaN] and [Infinity], which
    are not JSON, are outside the model. *)
Inductive value : Type :=
| VNone
| VBool (b : bool)
| VInt (n : Z)
| VFloat (m e : Z)
| VStr (s : string)
| VList (l : list value)
| VDict (d : list (string * value)).

(** The exceptions the client can raise.  [sendApiRequest] raises a plain
    [Exception] in two places, told apart here by what they report. *)
Inductive exn : Type :=
| DecodeError                 (* "Error converting API response to JSON!" *)
| ApiError (response : value) (* "Error in Response!" with the payload    *)
| ConnectionError             (* raised inside requests.post              *)
| TypeError
| KeyError
| IndexError
| ValueError
| AttributeError
| AssertionError.

Inductive result (A : Type) : Type :=
| Ok (a : A)
| Raise (e : exn).
Arguments Ok {A} a.
Arguments Raise {A} e.

Definition ret {A} (a : A) : result A := Ok a.

Definition bind {A B} (c : result A) (k : A -> result B) : result B :=
  match c with
  | Ok a => k a
  | Raise e => Raise e
  end.

Declare Scope py_scope.
Delimit Scope py_scope with py.
Notation "x <- c ;; k" := (bind c (fun x => k))
  (at level 61, c at next level, right associativity) : py_scope.
Local Open Scope py_scope.

(** [out = []; for x in xs: out.append(f(x))] *)
Fixpoint mapM {A B} (f : A -> result B) (xs : list A) : result (list B) :=
  match xs with
  | [] => ret []
  | x :: xs' => y <- f x ;; ys <- mapM f xs' ;; ret (y :: ys)
  end.

(** [for x in xs: st = f(st, x)]: a loop that updates one variable. *)
Fixpoint foldM {A S} (f : S -> A -> result S) (xs : list A) (st : S)
  : result S :=
  match xs with
  | [] => ret st
  | x :: xs' => st' <- f st x ;; foldM f xs' st'
  end.

(** *** Dicts with string keys, in insertion order *)

Fixpoint dict_get {A} (k : string) (d : list (string * A)) : option A :=
  match d with
  | [] => None
  | (k', v) :: d' => if String.eqb k k' then Some v else dict_get k d'
  end.

Definition dict_mem {A} (k : string) (d : list (string * A)) : bool :=
  match dict_get k d with Some _ => true | None => false end.

(** [d[k] = v]: an existing key keeps its place, a new one goes last. *)
Fixpoint dict_set {A} (k : string) (v : A) (d : list (string * A))
  : list (string * A) :=
  match d with
  | [] => [(k, v)]
  | (k', v') :: d' =>
      if String.eqb k k' then (k', v) :: d' else (k', v') :: dict_set k v d'
  end.

Definition dict_keys {A} (d : list (string * A)) : list string := map fst d.

(** *** Equality [==] *)

Definition bool_to_Z (b : bool) : Z := if b then 1%Z else 0%Z.

(** The number a value denotes, as [m * 2^e]; [bool] is a subclass of
    [int]. *)
Definition num_of (v : value) : option (Z * Z) :=
  match v with
  | VBool b => Some (bool_to_Z b, 0%Z)
  | VInt n => Some (n, 0%Z)
  | VFloat m e => Some (m, e)
  | _ => None
  end.

Definition num_eq (x y : Z * Z) : bool :=
  let '(m1, e1) := x in
  let '(m2, e2) := y in
  let k := Z.min e1 e2 in
  (m1 * 2 ^ (e1 - k) =? m2 * 2 ^ (e2 - k))%Z.

Fixpoint py_eq (a b : value) {struct a} : bool :=
  match a with
  | VNone => match b with VNone => true | _ => false end
  | VStr s => match b with VStr t => String.eqb s t | _ => false end
  | VList l =>
      match b with
      | VList l' =>
          (fix go (l l' : list value) : bool :=
             match l, l' with
             | [], [] => true
             | x :: xs, y :: ys => py_eq x y && go xs ys
             | _, _ => false
             end) l l'
      | _ => false
      end
  | VDict d =>
      match b with
      | VDict d' =>
          Nat.eqb (List.length d) (List.length d') &&
          (fix go (d : list (string * value)) : bool :=
             match d with
             | [] => true
             | (k, v) :: r =>
                 match dict_get k d' with
                 | Some v' => py_eq v v'
                 | None => false
                 end && go r
             end) d
      | _ => false
      end
  | VBool _ | VInt _ | VFloat _ _ =>
      match num_of a, num_of b with
      | Some x, Some y => num_eq x y
      | _, _ => false
      end
  end.

(** *** Membership, subscripts, iteration *)

(** [k in x] for a string [k]: key of a dict, element of a list, substring
    of a string; the other values are not iterable. *)
Definition py_in_str (k : string) (x : value) : result bool :=
  match x with
  | VDict d => ret (dict_mem k d)
  | VList l => ret (existsb (fun item => py_eq item (VStr k)) l)
  | VStr s => ret (match String.index 0 k s with Some _ => true | None => false end)
  | _ => Raise TypeError
  end.

(** [x in l] for a list the client built itself. *)
Definition list_contains (x : value) (l : list value) : bool :=
  existsb (fun item => py_eq item x) l.

(** [x[k]] for a string [k]. *)
Definition py_getitem (x : value) (k : string) : result value :=
  match x with
  | VDict d =>
      match dict_get k d with Some v => ret v | None => Raise KeyError end
  | _ => Raise TypeError
  end.

(** [x[k] = v] for a string [k]. *)
Definition py_setitem (x : value) (k : string) (v : value) : result value :=
  match x with
  | VDict d => ret (VDict (dict_set k v d))
  | _ => Raise TypeError
  end.

Definition chars (s : string) : list value :=
  map (fun c => VStr (String c EmptyString)) (list_ascii_of_string s).

(** [x[i]] for a literal index [i >= 0].  No JSON dict has an integer
    key. *)
Definition py_index (x : value) (i : nat) : result value :=
  match x with
  | VList l =>
      match nth_error l i with Some v => ret v | None => Raise IndexError end
  | VStr s =>
      match nth_error (chars s) i with
      | Some v => ret v
      | None => Raise IndexError
      end
  | VDict _ => Raise KeyError
  | _ => Raise TypeError
  end.

(** The items [for y in x[n:]] visits.  Slicing a dict is a [TypeError]
    (unhashable slice) up to Python 3.11. *)
Definition py_slice_from (x : value) (n : nat) : result (list value) :=
  match x with
  | VList l => ret (skipn n l)
  | VStr s => ret (skipn n (chars s))
  | _ => Raise TypeError
  end.

(** The items [for y in x] visits. *)
Definition py_iter (x : value) : result (list value) :=
  match x with
  | VList l => ret l
  | VDict d => ret (map VStr (dict_keys d))
  | VStr s => ret (chars s)
  | _ => Raise TypeError
  end.

(** [x.keys()] and [x.items()]: only a dict has them. *)
Definition py_keys (x : value) : result (list string) :=
  match x with
  | VDict d => ret (dict_keys d)
  | _ => Raise AttributeError
  end.

Definition py_items (x : value) : result (list (string * value)) :=
  match x with
  | VDict d => ret d
  | _ => Raise AttributeError
  end.

(** *** [int(...)], [bool(...)], [str(...)] *)

Definition is_space (c : ascii) : bool :=
  let n := nat_of_ascii c in
  ((9 <=? n) && (n <=? 13) || (28 <=? n) && (n <=? 32))%nat.

Definition digit_of (c : ascii) : option Z :=
  let n := nat_of_ascii c in
  if ((48 <=? n) && (n <=? 57))%nat then Some (Z.of_nat (n - 48)) else None.

Fixpoint lstrip (cs : list ascii) : list ascii :=
  match cs with
  | c :: cs' => if is_space c then lstrip cs' else cs
  | [] => []
  end.

Definition strip (cs : list ascii) : list ascii :=
  rev (lstrip (rev (lstrip cs))).

(** Decimal digits, single underscores allowed between two digits.
    [prev] tells whether the character before was a digit. *)
Fixpoint digits (cs : list ascii) (prev : bool) (acc : Z) : option Z :=
  match cs with
  | [] => if prev then Some acc else None
  | c :: cs' =>
      match digit_of c with
      | Some d => digits cs' true (10 * acc + d)%Z
      | None =>
          if (Ascii.eqb c "_" && prev)%bool then digits cs' false acc
          else None
      end
  end.

(** [int(s)] for a string, base 10: surrounding white space, an optional
    sign, digits.  Only ASCII digits and white space are recognised, and the
    interpreter's limit on the number of digits is not modelled. *)
Definition int_of_string (s : string) : option Z :=
  match strip (list_ascii_of_string s) with
  | [] => None
  | c :: cs =>
      if Ascii.eqb c "-" then option_map Z.opp (digits cs false 0%Z)
      else if Ascii.eqb c "+" then digits cs false 0%Z
      else digits (c :: cs) false 0%Z
  end.

(** [int(x)]: a float is truncated towards zero. *)
Definition py_int (x : value) : result Z :=
  match x with
  | VBool b => ret (bool_to_Z b)
  | VInt n => ret n
  | VFloat m e =>
      ret (if (0 <=? e)%Z then (m * 2 ^ e)%Z else Z.quot m (2 ^ (- e)))
  | VStr s =>
      match int_of_string s with Some n => ret n | None => Raise ValueError end
  | _ => Raise TypeError
  end.

(** [bool(n)] for an integer. *)
Definition bool_of_int (n : Z) : bool := negb (n =? 0)%Z.

(** [str(n)] for an integer. *)
Definition str_of_int (n : Z) : string := NilZero.string_of_int (Z.to_int n).

End Py.

(* ================================================================== *)
(** ** models.py *)
(* ================================================================== *)

Import Py.
Local Open Scope py_scope.

Module TransportationSystem.

(** An instance that passed [checkTypes]: every attribute has the type the
    assertions demand, [None] being the absent [option]. *)
Record t : Type := mk {
  id : Z;
  name : option string;
  username : option string;
  goAgencyName : option string;
  email : option string;
  goTestMode : option bool;
  name2 : option bool;
  homepage : option string;
  logo : option bool;
  goRoutePlannerEnabled : option bool;
  goColor : option string;
  goSupportEmail : option string;
  goSharedCode : option Z;
  goAuthenticationType : option bool
}.

(** [assert type(x) == int] *)
Definition check_int (x : value) : result Z :=
  match x with VInt n => ret n | _ => Raise AssertionError end.

(** [assert (type(x) == str or x is None)] *)
Definition check_opt_str (x : value) : result (option string) :=
  match x with
  | VStr s => ret (Some s)
  | VNone => ret None
  | _ => Raise AssertionError
  end.

(** [assert (type(x) == bool or x is None)] *)
Definition check_opt_bool (x : value) : result (option bool) :=
  match x with
  | VBool b => ret (Some b)
  | VNone => ret None
  | _ => Raise AssertionError
  end.

(** [assert (type(x) == int or x is None)] *)
Definition check_opt_int (x : value) : result (option Z) :=
  match x with
  | VInt n => ret (Some n)
  | VNone => ret None
  | _ => Raise AssertionError
  end.

(** [__init__] stores its arguments and runs [checkTypes]. *)
Definition init
  (id name username goAgencyName email goTestMode name2
   homepage logo goRoutePlannerEnabled goColor goSupportEmail
   goSharedCode goAuthenticationType
   : value) : result t :=
  id' <- check_int id ;;
  name' <- check_opt_str name ;;
  username' <- check_opt_str username ;;
  goAgencyName' <- check_opt_str goAgencyName ;;
  email' <- check_opt_str email ;;
  goTestMode' <- check_opt_bool goTestMode ;;
  name2' <- check_opt_bool name2 ;;
  homepage' <- check_opt_str homepage ;;
  logo' <- check_opt_bool logo ;;
  goRoutePlannerEnabled' <- check_opt_bool goRoutePlannerEnabled ;;
  goColor' <- check_opt_str goColor ;;
  goSupportEmail' <- check_opt_str goSupportEmail ;;
  goSharedCode' <- check_opt_int goSharedCode ;;
  goAuthenticationType' <- check_opt_bool goAuthenticationType ;;
  ret (mk id' name' username' goAgencyName' email' goTestMode' name2'
          homepage' logo' goRoutePlannerEnabled' goColor' goSupportEmail'
          goSharedCode' goAuthenticationType').

End TransportationSystem.

Module Stop.

Record t : Type := mk {
  id : value;
  routesAndPositions : list (string * list nat);
  systemId : value;
  name : value;
  latitude : value;
  longitude : value;
  radius : value;
  system : option TransportationSystem.t
}.

(** [__init__]: a [routesAndPositions] of [None] becomes the empty dict. *)
Definition init
  (id : value) (routesAndPositions : option (list (string * list nat)))
  (systemId name latitude longitude radius : value)
  (system : option TransportationSystem.t) : t :=
  let routesAndPositions :=
    match routesAndPositions with Some d => d | None => [] end in
  mk id routesAndPositions systemId name latitude longitude radius system.

End Stop.

Module Route.

(** The attributes [__init__] sets.  There is no [timezone] among them. *)
Record t : Type := mk {
  id : value;
  groupId : value;
  groupColor : value;
  name : value;
  shortName : value;
  nameOrig : value;
  fullname : value;
  myid : value;
  mapApp : value;
  archive : value;
  goPrefixRouteName : value;
  goShowSchedule : value;
  outdated : value;
  distance : value;
  latitude : value;
  longitude : value;
  serviceTime : value;
  serviceTimeShort : value;
  systemId : value;
  system : option TransportationSystem.t
}.

(** [__init__]: every argument but [timezone] is stored. *)
Definition init
  (id groupId groupColor name shortName nameOrig fullname myid mapApp
   archive goPrefixRouteName goShowSchedule outdated distance latitude
   longitude timezone serviceTime serviceTimeShort systemId
   : value)
  (system : option TransportationSystem.t) : t :=
  mk id groupId groupColor name shortName nameOrig fullname myid mapApp
     archive goPrefixRouteName goShowSchedule outdated distance latitude
     longitude serviceTime serviceTimeShort systemId system.

(** [getStops]: [self.system.getStops] is the function client.py attaches
    to [TransportationSystem], taken here as [system_getStops]. *)
Definition getStops
  (system_getStops : TransportationSystem.t -> result (option (list Stop.t)))
  (self : t) : result (list Stop.t) :=
  match system self with
  | None => Raise AttributeError
  | Some sys =>
      allStops <- system_getStops sys ;;
      match allStops with
      | None => Raise TypeError
      | Some allStops =>
          ret (fold_left
                 (fun stopsForRoute stop =>
                    let keys :=
                      map VStr (dict_keys (Stop.routesAndPositions stop)) in
                    if list_contains (myid self) keys
                       || list_contains (id self) keys
                       || list_contains (groupId self) keys
                    then stopsForRoute ++ [stop]
                    else stopsForRoute)
                 allStops [])
      end
  end.

End Route.

Module SystemAlert.

Record t : Type := mk {
  id : value;
  systemId : value;
  system : option TransportationSystem.t;
  routeId : value;
  name : value;
  html : value;
  archive : value;
  important : value;
  dateTimeCreated : value;
  dateTimeFrom : value;
  dateTimeTo : value;
  asPush : value;
  gtfs : value;
  gtfsAlertCauseId : value;
  gtfsAlertEffectId : value;
  gtfsAlertUrl : value;
  gtfsAlertHeaderText : value;
  gtfsAlertDescriptionText : value;
  routeGroupId : value;
  createdUtc : value;
  authorId : value;
  author : value;
  updated : value;
  updateAuthorId : value;
  updateAuthor : value;
  createdF : value;
  fromF : value;
  fromOk : value;
  toOk : value
}.

Definition init
  (id systemId : value) (system : option TransportationSystem.t)
  (routeId name html archive important dateTimeCreated dateTimeFrom
   dateTimeTo asPush gtfs gtfsAlertCauseId gtfsAlertEffectId gtfsAlertUrl
   gtfsAlertHeaderText gtfsAlertDescriptionText routeGroupId createdUtc
   authorId author updated updateAuthorId updateAuthor createdF fromF
   fromOk toOk
   : value) : t :=
  mk id systemId system
     routeId name html archive important dateTimeCreated dateTimeFrom
     dateTimeTo asPush gtfs gtfsAlertCauseId gtfsAlertEffectId
     gtfsAlertUrl gtfsAlertHeaderText gtfsAlertDescriptionText
     routeGroupId createdUtc authorId author updated updateAuthorId
     updateAuthor createdF fromF fromOk toOk.

End SystemAlert.

Module Vehicle.

Record t : Type := mk {
  id : value;
  name : value;
  type : value;
  system : option TransportationSystem.t;
  calculatedCourse : value;
  routeId : value;
  routeName : value;
  color : value;
  created : value;
  latitude : value;
  longitude : value;
  speed : value;
  paxLoad : value;
  outOfService : value;
  more : value;
  tripId : value
}.

Definition init
  (id name type : value) (system : option TransportationSystem.t)
  (calculatedCourse routeId routeName color created latitude longitude
   speed paxLoad outOfService more tripId
   : value) : t :=
  mk id name type system
     calculatedCourse routeId routeName color created latitude longitude
     speed paxLoad outOfService more tripId.

End Vehicle.

(* ================================================================== *)
(** ** client.py *)
(* ================================================================== *)

Module client.

Definition BASE_URL : string := "https://passiogo.com".

Definition toIntInclNone (toInt : value) : result value :=
  if py_eq toInt VNone then ret toInt
  else n <- py_int toInt ;; ret (VInt n).

(** [bool(int(x))] *)
Definition bool_int (x : value) : result value :=
  n <- py_int x ;; ret (VBool (bool_of_int n)).

(** [for key in keys: if key not in d.keys(): d[key] = None] *)
Definition default_keys (keys : list string) (d : value) : result value :=
  foldM (fun d key =>
           ks <- py_keys d ;;
           if negb (existsb (String.eqb key) ks) then py_setitem d key VNone
           else ret d)
        keys d.

(** [for key in keys: if key not in d: d[key] = None] *)
Definition default_items (keys : list string) (d : value) : result value :=
  foldM (fun d key =>
           present <- py_in_str key d ;;
           if negb present then py_setitem d key VNone else ret d)
        keys d.

(** What [requests.post(url, json = body)] followed by [response.json()]
    comes to: the call itself fails, or a body arrives that is JSON
    ([Some]) or is not ([None]). *)
Inductive reply : Type :=
| NoReply
| Body (parsed : option value).

(** *** Normalisation of a reply

    Each [*_response] below is the part of the listing function that follows
    its call to [sendApiRequest], applied to what that call returned. *)

(** Body of the loop [for system in systems["all"]]. *)
Definition getSystems_system (system : value)
  : result TransportationSystem.t :=
  parameters <- py_keys system ;;
  system <- foldM (fun system parameter =>
                     v <- py_getitem system parameter ;;
                     if py_eq v (VStr "") then py_setitem system parameter VNone
                     else ret system)
                  parameters system ;;
  system <- default_keys
              ["goAgencyName"; "email"; "email"; "goTestMode"; "name2";
               "homepage"; "logo"; "goRoutePlannerEnabled"; "goColor";
               "goSupportEmail"; "goSharedCode"; "goAuthenticationType"]
              system ;;
  id <- (v <- py_getitem system "id" ;; n <- py_int v ;; ret (VInt n)) ;;
  name <- py_getitem system "fullname" ;;
  username <- py_getitem system "username" ;;
  goAgencyName <- py_getitem system "goAgencyName" ;;
  email <- py_getitem system "email" ;;
  goTestMode <- (v <- py_getitem system "goTestMode" ;; bool_int v) ;;
  name2 <- (v <- py_getitem system "name2" ;; bool_int v) ;;
  homepage <- py_getitem system "homepage" ;;
  logo <- (v <- py_getitem system "logo" ;; bool_int v) ;;
  goRoutePlannerEnabled <-
    (v <- py_getitem system "goRoutePlannerEnabled" ;; bool_int v) ;;
  goColor <- py_getitem system "goColor" ;;
  goSupportEmail <- py_getitem system "goSupportEmail" ;;
  goSharedCode <- (v <- py_getitem system "goSharedCode" ;; toIntInclNone v) ;;
  goAuthenticationType <-
    (v <- py_getitem system "goAuthenticationType" ;; bool_int v) ;;
  TransportationSystem.init
    id name username goAgencyName email goTestMode name2 homepage logo
    goRoutePlannerEnabled goColor goSupportEmail goSharedCode
    goAuthenticationType.

Definition getSystems_response (systems : value)
  : result (list TransportationSystem.t) :=
  if py_eq systems VNone then ret []
  else
    all <- py_getitem systems "all" ;;
    items <- py_iter all ;;
    mapM getSystems_system items.

Definition possibleKeys : list string :=
  ["id"; "groupId"; "groupColor"; "name"; "shortName"; "nameOrig";
   "fullname"; "myid"; "mapApp"; "archive"; "goPrefixRouteName";
   "goShowSchedule"; "outdated"; "distance"; "latitude"; "longitude";
   "timezone"; "serviceTime"; "serviceTimeShort"].

(** Body of the loop [for route in routes]. *)
Definition getRoutes_route (system : TransportationSystem.t) (route : value)
  : result Route.t :=
  route <- default_keys possibleKeys route ;;
  id <- py_getitem route "id" ;;
  groupId <- py_getitem route "groupId" ;;
  groupColor <- py_getitem route "groupColor" ;;
  name <- py_getitem route "name" ;;
  shortName <- py_getitem route "shortName" ;;
  nameOrig <- py_getitem route "nameOrig" ;;
  fullname <- py_getitem route "fullname" ;;
  myid <- py_getitem route "myid" ;;
  mapApp <- py_getitem route "mapApp" ;;
  archive <- py_getitem route "archive" ;;
  goPrefixRouteName <- py_getitem route "goPrefixRouteName" ;;
  goShowSchedule <- py_getitem route "goShowSchedule" ;;
  outdated <- py_getitem route "outdated" ;;
  distance <- py_getitem route "distance" ;;
  latitude <- py_getitem route "latitude" ;;
  longitude <- py_getitem route "longitude" ;;
  timezone <- py_getitem route "timezone" ;;
  serviceTime <- py_getitem route "serviceTime" ;;
  serviceTimeShort <- py_getitem route "serviceTimeShort" ;;
  systemId <- (v <- py_getitem route "userId" ;; n <- py_int v ;; ret (VInt n)) ;;
  ret (Route.init
         id groupId groupColor name shortName nameOrig fullname myid
         mapApp archive goPrefixRouteName goShowSchedule outdated
         distance latitude longitude timezone serviceTime
         serviceTimeShort systemId (Some system)).

Definition getRoutes_response (system : TransportationSystem.t)
  (routes : value) : result (option (list Route.t)) :=
  if py_eq routes VNone then ret None
  else
    wrapped <- py_in_str "all" routes ;;
    routes <- (if wrapped then py_getitem routes "all" else ret routes) ;;
    items <- py_iter routes ;;
    allRoutes <- mapM (getRoutes_route system) items ;;
    ret (Some allRoutes).

(** [routesAndStops[routeId].append(x)] *)
Definition append_at (routeId : string) (x : value)
  (routesAndStops : list (string * list value))
  : result (list (string * list value)) :=
  match dict_get routeId routesAndStops with
  | Some l => ret (dict_set routeId (l ++ [x]) routesAndStops)
  | None => Raise KeyError
  end.

(** The loop that fills [routesAndStops], {routeid -> [stopid, stopid]}. *)
Definition build_routesAndStops (routes : list (string * value))
  : result (list (string * list value)) :=
  foldM (fun routesAndStops '(routeId, route) =>
           let routesAndStops := dict_set routeId [] routesAndStops in
           entries <- py_slice_from route 2 ;;
           foldM (fun routesAndStops stop =>
                    if py_eq stop (VInt 0%Z) then ret routesAndStops
                    else
                      x <- py_index stop 1 ;;
                      append_at routeId x routesAndStops)
                 entries routesAndStops)
        routes [].

(** [[i for i, x in enumerate(l) if x == y]] *)
Definition positions (y : value) (l : list value) : list nat :=
  map fst
      (filter (fun '(i, x) => py_eq x y)
              (combine (seq 0 (List.length l)) l)).

(** The loop that fills one stop's [routesAndPositions]. *)
Definition build_routesAndPositions
  (routesAndStops : list (string * list value)) (stop : value)
  : result (list (string * list nat)) :=
  foldM (fun routesAndPositions routeId =>
           match dict_get routeId routesAndStops with
           | None => Raise KeyError
           | Some l =>
               id <- py_getitem stop "id" ;;
               if negb (list_contains id l) then ret routesAndPositions
               else
                 id <- py_getitem stop "id" ;;
                 ret (dict_set routeId (positions id l) routesAndPositions)
           end)
        (dict_keys routesAndStops) [].

(** Body of the loop [for id, stop in stops["stops"].items()]. *)
Definition getStops_stop (system : TransportationSystem.t)
  (routesAndStops : list (string * list value)) (stop : value)
  : result Stop.t :=
  routesAndPositions <- build_routesAndPositions routesAndStops stop ;;
  stop <- default_items ["userId"; "radius"] stop ;;
  id <- py_getitem stop "id" ;;
  systemId <- (u <- py_getitem stop "userId" ;;
               match u with
               | VNone => ret VNone
               | _ => u <- py_getitem stop "userId" ;;
                      n <- py_int u ;; ret (VInt n)
               end) ;;
  name <- py_getitem stop "name" ;;
  latitude <- py_getitem stop "latitude" ;;
  longitude <- py_getitem stop "longitude" ;;
  radius <- py_getitem stop "radius" ;;
  ret (Stop.init id (Some routesAndPositions) systemId name latitude
                 longitude radius (Some system)).

Definition getStops_response (system : TransportationSystem.t)
  (stops : value) : result (option (list Stop.t)) :=
  if py_eq stops VNone then ret None
  else
    r <- py_getitem stops "routes" ;;
    stops <- (if py_eq r (VList []) then py_setitem stops "routes" (VDict [])
              else ret stops) ;;
    s <- py_getitem stops "stops" ;;
    stops <- (if py_eq s (VList []) then py_setitem stops "stops" (VDict [])
              else ret stops) ;;
    routes <- (r <- py_getitem stops "routes" ;; py_items r) ;;
    routesAndStops <- build_routesAndStops routes ;;
    records <- (s <- py_getitem stops "stops" ;; py_items s) ;;
    allStops <- mapM (fun '(_, stop) => getStops_stop system routesAndStops stop)
                     records ;;
    ret (Some allStops).

(** Body of the loop [for errorMsg in errorMsgs["msgs"]]. *)
Definition getSystemAlerts_msg (system : TransportationSystem.t)
  (errorMsg : value) : result SystemAlert.t :=
  id <- py_getitem errorMsg "id" ;;
  systemId <- py_getitem errorMsg "userId" ;;
  routeId <- py_getitem errorMsg "routeId" ;;
  name <- py_getitem errorMsg "name" ;;
  html <- py_getitem errorMsg "html" ;;
  archive <- py_getitem errorMsg "archive" ;;
  important <- py_getitem errorMsg "important" ;;
  dateTimeCreated <- py_getitem errorMsg "created" ;;
  dateTimeFrom <- py_getitem errorMsg "from" ;;
  dateTimeTo <- py_getitem errorMsg "to" ;;
  asPush <- py_getitem errorMsg "asPush" ;;
  gtfs <- py_getitem errorMsg "gtfs" ;;
  gtfsAlertCauseId <- py_getitem errorMsg "gtfsAlertCauseId" ;;
  gtfsAlertEffectId <- py_getitem errorMsg "gtfsAlertEffectId" ;;
  gtfsAlertUrl <- py_getitem errorMsg "gtfsAlertUrl" ;;
  gtfsAlertHeaderText <- py_getitem errorMsg "gtfsAlertHeaderText" ;;
  gtfsAlertDescriptionText <- py_getitem errorMsg "gtfsAlertDescriptionText" ;;
  routeGroupId <- py_getitem errorMsg "routeGroupId" ;;
  createdUtc <- py_getitem errorMsg "createdUtc" ;;
  authorId <- py_getitem errorMsg "authorId" ;;
  author <- py_getitem errorMsg "author" ;;
  updated <- py_getitem errorMsg "updated" ;;
  updateAuthorId <- py_getitem errorMsg "updateAuthorId" ;;
  updateAuthor <- py_getitem errorMsg "updateAuthor" ;;
  createdF <- py_getitem errorMsg "createdF" ;;
  fromF <- py_getitem errorMsg "fromF" ;;
  fromOk <- py_getitem errorMsg "fromOk" ;;
  toOk <- py_getitem errorMsg "toOk" ;;
  ret (SystemAlert.init
         id systemId (Some system) routeId name html archive important
         dateTimeCreated dateTimeFrom dateTimeTo asPush gtfs
         gtfsAlertCauseId gtfsAlertEffectId gtfsAlertUrl
         gtfsAlertHeaderText gtfsAlertDescriptionText routeGroupId
         createdUtc authorId author updated updateAuthorId updateAuthor
         createdF fromF fromOk toOk).

Definition getSystemAlerts_response (system : TransportationSystem.t)
  (errorMsgs : value) : result (option (list SystemAlert.t)) :=
  if py_eq errorMsgs VNone then ret None
  else
    msgs <- py_getitem errorMsgs "msgs" ;;
    items <- py_iter msgs ;;
    allAlerts <- mapM (getSystemAlerts_msg system) items ;;
    ret (Some allAlerts).

Definition vehicleKeys : list string :=
  ["busId"; "busName"; "busType"; "calculatedCourse"; "routeId"; "route";
   "color"; "created"; "latitude"; "longitude"; "speed"; "paxLoad100";
   "outOfService"; "more"; "tripId"].

(** Body of the loop over [vehicles["buses"].items()], after the test on
    the key. *)
Definition getVehicles_vehicle (system : TransportationSystem.t)
  (vehicle : value) : result Vehicle.t :=
  vehicle <- py_index vehicle 0 ;;
  vehicle <- default_items vehicleKeys vehicle ;;
  id <- py_getitem vehicle "busId" ;;
  name <- py_getitem vehicle "busName" ;;
  type <- py_getitem vehicle "busType" ;;
  calculatedCourse <- py_getitem vehicle "calculatedCourse" ;;
  routeId <- py_getitem vehicle "routeId" ;;
  routeName <- py_getitem vehicle "route" ;;
  color <- py_getitem vehicle "color" ;;
  created <- py_getitem vehicle "created" ;;
  latitude <- py_getitem vehicle "latitude" ;;
  longitude <- py_getitem vehicle "longitude" ;;
  speed <- py_getitem vehicle "speed" ;;
  paxLoad <- py_getitem vehicle "paxLoad100" ;;
  outOfService <- py_getitem vehicle "outOfService" ;;
  more <- py_getitem vehicle "more" ;;
  tripId <- py_getitem vehicle "tripId" ;;
  ret (Vehicle.init
         id name type (Some system) calculatedCourse routeId routeName
         color created latitude longitude speed paxLoad outOfService more
         tripId).

Definition getVehicles_response (system : TransportationSystem.t)
  (vehicles : value) : result (option (list Vehicle.t)) :=
  if py_eq vehicles VNone then ret None
  else
    buses <- (b <- py_getitem vehicles "buses" ;; py_items b) ;;
    allVehicles <-
      foldM (fun allVehicles '(vehicleId, vehicle) =>
               if String.eqb vehicleId "-1" then ret allVehicles
               else
                 v <- getVehicles_vehicle system vehicle ;;
                 ret (allVehicles ++ [v]))
            buses [] ;;
    ret (Some allVehicles).

(** *** The requests *)

Section Transport.

(** The remote server: the reply to a POST of [body] to [url].  Every
    operation sends one request. *)
Variable post : string -> value -> reply.

Definition sendApiRequest (url : string) (body : value) : result value :=
  match post url body with
  | NoReply => Raise ConnectionError
  | Body None => Raise DecodeError
  | Body (Some response) =>
      has_error <- py_in_str "error" response ;;
      if has_error then
        e <- py_getitem response "error" ;;
        if negb (py_eq e (VStr "")) then Raise (ApiError response)
        else ret response
      else ret response
  end.

Definition getSystems (appVersion sortMode : Z)
  : result (list TransportationSystem.t) :=
  let url := (BASE_URL ++ "/mapGetData.php?getSystems="
              ++ str_of_int appVersion ++ "&sortMode=" ++ str_of_int sortMode
              ++ "&credentials=1")%string in
  systems <- sendApiRequest url VNone ;;
  getSystems_response systems.

Definition getSystemFromID (id appVersion sortMode : Z)
  : result (option TransportationSystem.t) :=
  systems <- getSystems appVersion sortMode ;;
  ret (find (fun system => (TransportationSystem.id system =? id)%Z) systems).

Definition getRoutes (system : TransportationSystem.t) (appVersion amount : Z)
  : result (option (list Route.t)) :=
  let url := (BASE_URL ++ "/mapGetData.php?getRoutes="
              ++ str_of_int appVersion)%string in
  let body :=
    VDict [("systemSelected0",
            VStr (str_of_int (TransportationSystem.id system)));
           ("amount", VInt amount)] in
  routes <- sendApiRequest url body ;;
  getRoutes_response system routes.

(** With [raw] set the reply is returned as it came ([inl]). *)
Definition getStops (system : TransportationSystem.t) (appVersion sA : Z)
  (raw : bool) : result (value + option (list Stop.t)) :=
  let url := (BASE_URL ++ "/mapGetData.php?getStops="
              ++ str_of_int appVersion)%string in
  let body :=
    VDict [("s0", VStr (str_of_int (TransportationSystem.id system)));
           ("sA", VInt sA)] in
  stops <- sendApiRequest url body ;;
  if raw then ret (inl stops)
  else r <- getStops_response system stops ;; ret (inr r).

Definition getSystemAlerts (system : TransportationSystem.t)
  (appVersion amount routesAmount : Z)
  : result (option (list SystemAlert.t)) :=
  let url := (BASE_URL ++ "/goServices.php?getAlertMessages="
              ++ str_of_int appVersion)%string in
  let body :=
    VDict [("systemSelected0",
            VStr (str_of_int (TransportationSystem.id system)));
           ("amount", VInt amount);
           ("routesAmount", VInt routesAmount)] in
  errorMsgs <- sendApiRequest url body ;;
  getSystemAlerts_response system errorMsgs.

Definition getVehicles (system : TransportationSystem.t) (appVersion : Z)
  : result (option (list Vehicle.t)) :=
  let url := (BASE_URL ++ "/mapGetData.php?getBuses="
              ++ str_of_int appVersion)%string in
  let body :=
    VDict [("s0", VStr (str_of_int (TransportationSystem.id system)));
           ("sA", VInt 1%Z)] in
  vehicles <- sendApiRequest url body ;;
  getVehicles_response system vehicles.

(** [TransportationSystem.getStops = getStops], called by [Route.getStops]
    with the defaults [appVersion = 2], [sA = 1], [raw = False], under which
    the [inl] case does not arise. *)
Definition system_getStops (system : TransportationSystem.t)
  : result (option (list Stop.t)) :=
  r <- getStops system 2%Z 1%Z false ;;
  match r with
  | inr stops => ret stops
  | inl _ => ret None
  end.

Definition Route_getStops (self : Route.t) : result (list Stop.t) :=
  Route.getStops system_getStops self.

End Transport.

End client.

(* ================================================================== *)
(** ** What the normalisation is meant to compute *)
(* ================================================================== *)

(** The value of a field of a raw record, [None] when the record lacks
    it. *)
Definition field (d : list (string * value)) (k : string) : value :=
  match dict_get k d with
  | Some v => v
  | None => VNone
  end.

(** One round of "set a missing key to [None]", and the whole loop, on the
    dict itself. *)
Definition default_step (d : list (string * value)) (k : string)
  : list (string * value) :=
  if dict_mem k d then d else dict_set k VNone d.

Definition with_defaults (keys : list string) (d : list (string * value))
  : list (string * value) :=
  fold_left default_step keys d.

(** The vehicle a raw vehicle record describes: absent fields are [None],
    and [busId], [busName], [busType], [route], [paxLoad100] are renamed. *)
Definition vehicle_of_record (system : TransportationSystem.t)
  (d : list (string * value)) : Vehicle.t :=
  {| Vehicle.id := field d "busId";
     Vehicle.name := field d "busName";
     Vehicle.type := field d "busType";
     Vehicle.system := Some system;
     Vehicle.calculatedCourse := field d "calculatedCourse";
     Vehicle.routeId := field d "routeId";
     Vehicle.routeName := field d "route";
     Vehicle.color := field d "color";
     Vehicle.created := field d "created";
     Vehicle.latitude := field d "latitude";
     Vehicle.longitude := field d "longitude";
     Vehicle.speed := field d "speed";
     Vehicle.paxLoad := field d "paxLoad100";
     Vehicle.outOfService := field d "outOfService";
     Vehicle.more := field d "more";
     Vehicle.tripId := field d "tripId" |}.

(** The record in a one-element array, the shape of an entry of [buses]. *)
Definition first_record (entry : value) : list (string * value) :=
  match entry with
  | VList (VDict d :: _) => d
  | _ => []
  end.

(** A stop is keyed by [x] when [x] is, up to [==], one of the keys of its
    [routesAndPositions]; a route serves the stops keyed by its [myid], its
    [id] or its [groupId]. *)
Definition keyed_by (x : value) (stop : Stop.t) : Prop :=
  exists k, In k (dict_keys (Stop.routesAndPositions stop))
            /\ py_eq (VStr k) x = true.

Definition serves (route : Route.t) (stop : Stop.t) : Prop :=
  keyed_by (Route.myid route) stop \/
  keyed_by (Route.id route) stop \/
  keyed_by (Route.groupId route) stop.

(** The items of the [routes] or [stops] collection of a raw stop listing:
    an empty array stands for an empty mapping. *)
Definition items_or_empty (v : value) : result (list (string * value)) :=
  if py_eq v (VList []) then ret [] else py_items v.

Definition raw_routes (stops : value) : list (string * value) :=
  match py_getitem stops "routes" with
  | Ok (VDict d) => d
  | _ => []
  end.

Definition raw_stops (stops : value) : list (string * value) :=
  match py_getitem stops "stops" with
  | Ok (VDict d) => d
  | _ => []
  end.

(** The stop id of a [[position, stopId]] entry. *)
Definition second (entry : value) : list value :=
  match py_index entry 1 with
  | Ok x => [x]
  | Raise _ => []
  end.

(** The stop-id list of a raw route: the entries after the two metadata
    elements, the placeholders (entries equal to 0) left out. *)
Definition stop_ids (route : value) : list value :=
  match py_slice_from route 2 with
  | Ok entries =>
      flat_map (fun entry => if py_eq entry (VInt 0%Z) then [] else second entry)
               entries
  | Raise _ => []
  end.

(** Reading a route's stop-id list back from the stops: the pairs
    (position, stop id) the stops record for the route, then, position by
    position up to the largest one recorded, the id recorded there. *)
Definition recorded (routeId : string) (allStops : list Stop.t)
  : list (nat * value) :=
  flat_map (fun stop =>
              match dict_get routeId (Stop.routesAndPositions stop) with
              | Some ps => map (fun p => (p, Stop.id stop)) ps
              | None => []
              end)
           allStops.

Definition reconstruct (routeId : string) (allStops : list Stop.t)
  : list value :=
  let pairs := recorded routeId allStops in
  flat_map (fun i =>
              match find (fun pr => Nat.eqb (fst pr) i) pairs with
              | Some (_, x) => [x]
              | None => []
              end)
           (seq 0 (list_max (map (fun pr => S (fst pr)) pairs))).

(** The round trip of the stop listing: every route's stop-id list is read
    back, up to [==], from the stops returned. *)
Definition round_trip (stops : value) (allStops : list Stop.t) : Prop :=
  forall routeId route,
    dict_get routeId (raw_routes stops) = Some route ->
    Forall2 (fun x y => py_eq x y = true)
            (stop_ids route) (reconstruct routeId allStops).

(** A flag of a system reads a raw field when the field is there, converts
    to an integer, and the flag says whether that integer is not zero. *)
Definition flag_reads (d : list (string * value)) (k : string)
  (flag : option bool) : Prop :=
  exists v n, dict_get k d = Some v /\ py_int v = Ok n
              /\ flag = Some (bool_of_int n).


(** The keys [getSystemAlerts] reads from a raw alert message, and the
    alert a message that has them all describes. *)
Definition alertKeys : list string :=
  ["id"; "userId"; "routeId"; "name"; "html"; "archive"; "important";
   "created"; "from"; "to"; "asPush"; "gtfs"; "gtfsAlertCauseId";
   "gtfsAlertEffectId"; "gtfsAlertUrl"; "gtfsAlertHeaderText";
   "gtfsAlertDescriptionText"; "routeGroupId"; "createdUtc"; "authorId";
   "author"; "updated"; "updateAuthorId"; "updateAuthor"; "createdF";
   "fromF"; "fromOk"; "toOk"].

Definition alert_of_record (system : TransportationSystem.t)
  (d : list (string * value)) : SystemAlert.t :=
  {| SystemAlert.id := field d "id";
     SystemAlert.systemId := field d "userId";
     SystemAlert.system := Some system;
     SystemAlert.routeId := field d "routeId";
     SystemAlert.name := field d "name";
     SystemAlert.html := field d "html";
     SystemAlert.archive := field d "archive";
     SystemAlert.important := field d "important";
     SystemAlert.dateTimeCreated := field d "created";
     SystemAlert.dateTimeFrom := field d "from";
     SystemAlert.dateTimeTo := field d "to";
     SystemAlert.asPush := field d "asPush";
     SystemAlert.gtfs := field d "gtfs";
     SystemAlert.gtfsAlertCauseId := field d "gtfsAlertCauseId";
     SystemAlert.gtfsAlertEffectId := field d "gtfsAlertEffectId";
     SystemAlert.gtfsAlertUrl := field d "gtfsAlertUrl";
     SystemAlert.gtfsAlertHeaderText := field d "gtfsAlertHeaderText";
     SystemAlert.gtfsAlertDescriptionText := field d "gtfsAlertDescriptionText";
     SystemAlert.routeGroupId := field d "routeGroupId";
     SystemAlert.createdUtc := field d "createdUtc";
     SystemAlert.authorId := field d "authorId";
     SystemAlert.author := field d "author";
     SystemAlert.updated := field d "updated";
     SystemAlert.updateAuthorId := field d "updateAuthorId";
     SystemAlert.updateAuthor := field d "updateAuthor";
     SystemAlert.createdF := field d "createdF";
     SystemAlert.fromF := field d "fromF";
     SystemAlert.fromOk := field d "fromOk";
     SystemAlert.toOk := field d "toOk" |}.


(** Well-formed raw stop listings: an entry of a route is the placeholder
    or an array of at least two elements, a route is an array of such
    entries after its first two elements, a stop record has [id], [name],
    [latitude] and [longitude] and a [userId], if any, that is [None] or
    converts to an integer. *)
Definition wf_entry (entry : value) : bool :=
  py_eq entry (VInt 0%Z)
  || match entry with
     | VList (_ :: _ :: _) => true
     | _ => false
     end.

Definition wf_route (route : value) : bool :=
  match route with
  | VList l => forallb wf_entry (skipn 2 l)
  | _ => false
  end.


(* ================================================================== *)
(** ** Example data *)
(* ================================================================== *)

Definition example_system : TransportationSystem.t :=
  TransportationSystem.mk 1270%Z (Some "University of Michigan") None None
    None None None None None None None None None None.

(** A server that answers every request with the same parsed body. *)
Definition always (response : value) : string -> value -> client.reply :=
  fun _ _ => client.Body (Some response).

(** A system record that has every coerced flag but [logo]. *)
Definition record_without_logo : value :=
  VDict [("id", VStr "1270"); ("fullname", VStr "University of Michigan");
         ("username", VStr "umich"); ("goTestMode", VStr "0");
         ("name2", VStr "0"); ("goRoutePlannerEnabled", VStr "1");
         ("goAuthenticationType", VStr "0")].

Definition example_route_record : value :=
  VDict [("id", VStr "101"); ("groupId", VStr "7"); ("myid", VStr "55");
         ("name", VStr "Loop"); ("timezone", VStr "America/Detroit");
         ("userId", VStr "1270")].

(** One route, keyed by the group id ["7"], that visits stop ["s1"] twice
    around a placeholder and stop ["s2"] once. *)
Definition example_stops_response : value :=
  VDict
    [("routes",
      VDict [("7", VList [VStr "Loop"; VStr "#00274c";
                          VList [VInt 0; VStr "s1"]; VInt 0;
                          VList [VInt 1; VStr "s2"];
                          VList [VInt 2; VStr "s1"]])]);
     ("stops",
      VDict [("ID1", VDict [("id", VStr "s1"); ("name", VStr "Union");
                            ("latitude", VFloat 3 (-1)); ("longitude", VInt 2);
                            ("userId", VStr "1270")]);
             ("ID2", VDict [("id", VStr "s2"); ("name", VStr "Library");
                            ("latitude", VInt 4); ("longitude", VInt 5)])])].

(** A route that names a stop no stop record describes. *)
Definition dangling_stops_response : value :=
  VDict [("routes",
          VDict [("7", VList [VStr "Loop"; VStr "#00274c";
                              VList [VInt 0; VStr "s1"]])]);
         ("stops", VDict [])].

(** No routes, one stop. *)
Definition routeless_stops_response : value :=
  VDict [("routes", VList []);
         ("stops",
          VDict [("ID1", VDict [("id", VStr "s1"); ("name", VStr "Union");
                                ("latitude", VInt 4);
                                ("longitude", VInt 5)])])].

Definition example_vehicles_response : value :=
  VDict [("buses",
          VDict [("-1", VList [VDict [("busId", VInt (-1))]]);
                 ("12", VList [VDict [("busId", VInt 12);
                                      ("busName", VStr "3021");
                                      ("route", VStr "Loop");
                                      ("paxLoad100", VInt 40)]])])].

Definition example_alert : value :=
  VDict (map (fun k => (k, VStr "x"))
             ["id"; "userId"; "routeId"; "name"; "html"; "archive";
              "important"; "created"; "from"; "to"; "asPush"; "gtfs";
              "gtfsAlertCauseId"; "gtfsAlertEffectId"; "gtfsAlertUrl";
              "gtfsAlertHeaderText"; "gtfsAlertDescriptionText";
              "routeGroupId"; "createdUtc"; "authorId"; "author"; "updated";
              "updateAuthorId"; "updateAuthor"; "createdF"; "fromF"; "fromOk";
              "toOk"]).

(** One reply that serves all four listings of a system. *)
Definition example_reply : value :=
  VDict [("all", VList [example_route_record]);
         ("routes", VDict []);
         ("stops",
          VDict [("ID1", VDict [("id", VStr "s1"); ("name", VStr "Union");
                                ("latitude", VInt 4);
                                ("longitude", VInt 5)])]);
         ("msgs", VList [example_alert]);
         ("buses", VDict [("12", VList [VDict [("busId", VInt 12)]])])].

(** A route whose [id] and [myid] key no stop of [example_stops_response]
    and whose [groupId] keys both. *)
Definition example_route : Route.t :=
  Route.init (VStr "101") (VStr "7") VNone (VStr "Loop") VNone VNone VNone
    (VStr "55") VNone VNone VNone VNone VNone VNone VNone VNone
    (VStr "America/Detroit") VNone VNone (VInt 1270) (Some example_system).

(** The stops of [example_stops_response]. *)
Definition example_stops : list Stop.t :=
  [Stop.mk (VStr "s1") [("7", [0; 2])] (VInt 1270) (VStr "Union")
     (VFloat 3 (-1)) (VInt 2) VNone (Some example_system);
   Stop.mk (VStr "s2") [("7", [1])] VNone (VStr "Library")
     (VInt 4) (VInt 5) VNone (Some example_system)].

(* ================================================================== *)
(** ** The raw records, read without the in-place loops *)
(* ================================================================== *)

(** A reply is free of an API error when it has no [error] entry or an
    empty one. *)
Definition no_error (d : list (string * value)) : Prop :=
  dict_get "error" d = None \/ dict_get "error" d = Some (VStr "").

(** [v], the empty string turned into [None]. *)
Definition blank (v : value) : value :=
  if py_eq v (VStr "") then VNone else v.

(** A field of a raw system record: blanked, [None] when absent ([norm]),
    or a [KeyError] when absent ([required]). *)
Definition norm (d : list (string * value)) (k : string) : value :=
  match dict_get k d with
  | Some v => blank v
  | None => VNone
  end.

Definition required (d : list (string * value)) (k : string) : result value :=
  match dict_get k d with
  | Some v => ret (blank v)
  | None => Raise KeyError
  end.

(** The system a raw system record describes. *)
Definition system_of_record (d : list (string * value))
  : result TransportationSystem.t :=
  id <- (v <- required d "id" ;; n <- py_int v ;; ret (VInt n)) ;;
  name <- required d "fullname" ;;
  username <- required d "username" ;;
  goTestMode <- client.bool_int (norm d "goTestMode") ;;
  name2 <- client.bool_int (norm d "name2") ;;
  logo <- client.bool_int (norm d "logo") ;;
  goRoutePlannerEnabled <- client.bool_int (norm d "goRoutePlannerEnabled") ;;
  goSharedCode <- client.toIntInclNone (norm d "goSharedCode") ;;
  goAuthenticationType <- client.bool_int (norm d "goAuthenticationType") ;;
  TransportationSystem.init
    id name username (norm d "goAgencyName") (norm d "email") goTestMode
    name2 (norm d "homepage") logo goRoutePlannerEnabled (norm d "goColor")
    (norm d "goSupportEmail") goSharedCode goAuthenticationType.

(** A text field of a raw record as a system holds it. *)
Definition text_field (d : list (string * value)) (k : string)
  : option string :=
  match dict_get k d with
  | Some (VStr s) => if String.eqb s "" then None else Some s
  | _ => None
  end.

(** The Python values of the typed attributes of a system. *)
Definition of_opt_str (o : option string) : value :=
  match o with Some s => VStr s | None => VNone end.

Definition of_opt_bool (o : option bool) : value :=
  match o with Some b => VBool b | None => VNone end.

Definition of_opt_int (o : option Z) : value :=
  match o with Some n => VInt n | None => VNone end.

(** A system record with every coerced flag, and the system it gives. *)
Definition example_system_record : value :=
  VDict [("id", VStr "1270"); ("fullname", VStr "University of Michigan");
         ("username", VStr "umich"); ("goTestMode", VStr "0");
         ("name2", VStr "0"); ("logo", VStr "1"); ("homepage", VStr "");
         ("goRoutePlannerEnabled", VStr "1");
         ("goAuthenticationType", VStr "0"); ("goSharedCode", VStr "42")].

Definition example_listed_system : TransportationSystem.t :=
  TransportationSystem.mk 1270%Z (Some "University of Michigan")
    (Some "umich") None None (Some false) (Some false) None (Some true)
    (Some true) None None (Some 42%Z) (Some false).

(** The two mappings of [example_stops_response]. *)
Definition example_routes_mapping : list (string * value) :=
  [("7", VList [VStr "Loop"; VStr "#00274c"; VList [VInt 0; VStr "s1"];
                VInt 0; VList [VInt 1; VStr "s2"];
                VList [VInt 2; VStr "s1"]])].


(* ================================================================== *)
(** ** Properties *)
(* ================================================================== *)

Local Open Scope py_scope.

(** *** The result monad and the dict operations *)

Lemma bind_Ok {A B} (c : result A) (k : A -> result B) (b : B) :
  bind c k = Ok b -> exists a, c = Ok a /\ k a = Ok b.
Proof.
  destruct c as [a|e]; simpl; intros H; [eauto | discriminate].
Qed.

Lemma mapM_Ok {A B} (f : A -> result B) (xs : list A) (ys : list B) :
  mapM f xs = Ok ys -> Forall2 (fun x y => f x = Ok y) xs ys.
Proof.
  revert ys; induction xs as [|x xs IH]; simpl; intros ys H.
  - injection H as <-. constructor.
  - apply bind_Ok in H as (y & Hy & H).
    apply bind_Ok in H as (ys' & Hys & H).
    injection H as <-. constructor; auto.
Qed.

Lemma mapM_map {A B} (f : A -> result B) (g : A -> B) (xs : list A) :
  (forall x, In x xs -> f x = Ok (g x)) -> mapM f xs = Ok (map g xs).
Proof.
  induction xs as [|x xs IH]; simpl; intros H; [reflexivity|].
  rewrite (H x) by auto. simpl. rewrite IH by auto. reflexivity.
Qed.

Lemma dict_get_set {A} (k k' : string) (v : A) (d : list (string * A)) :
  dict_get k (dict_set k' v d)
  = if String.eqb k k' then Some v else dict_get k d.
Proof.
  induction d as [|[k0 v0] d IH]; simpl.
  - destruct (String.eqb k k'); reflexivity.
  - destruct (String.eqb k' k0) eqn:E0; simpl.
    + apply String.eqb_eq in E0; subst k0.
      destruct (String.eqb k k'); reflexivity.
    + destruct (String.eqb k k0) eqn:E1.
      * apply String.eqb_eq in E1; subst k0.
        rewrite String.eqb_sym, E0. reflexivity.
      * exact IH.
Qed.

Lemma py_eq_None (x : value) : py_eq x VNone = true -> x = VNone.
Proof.
  destruct x; simpl; try discriminate; try reflexivity.
Qed.

(** *** Transport *)

Section TransportFacts.

Variable post : string -> value -> client.reply.

(** A reply that is a JSON object is returned as it is unless it has an
    [error] entry other than the empty string. *)
Lemma sendApiRequest_object (url : string) (body : value)
  (d : list (string * value)) :
  post url body = client.Body (Some (VDict d)) ->
  client.sendApiRequest post url body
  = match dict_get "error" d with
    | Some e =>
        if py_eq e (VStr "") then Ok (VDict d)
        else Raise (ApiError (VDict d))
    | None => Ok (VDict d)
    end.
Proof.
  intros H. unfold client.sendApiRequest. rewrite H. simpl.
  unfold dict_mem. destruct (dict_get "error" d) as [e|]; simpl; auto.
  destruct (py_eq e (VStr "")); reflexivity.
Qed.

Lemma sendApiRequest_not_json (url : string) (body : value) :
  post url body = client.Body None ->
  client.sendApiRequest post url body = Raise DecodeError.
Proof.
  intros H. unfold client.sendApiRequest. rewrite H. reflexivity.
Qed.

(** Whatever the server does, [sendApiRequest] does not return [None]. *)
Lemma sendApiRequest_never_None (url : string) (body : value) :
  client.sendApiRequest post url body <> Ok VNone.
Proof.
  unfold client.sendApiRequest.
  destruct (post url body) as [|[response|]]; try discriminate.
  destruct response; simpl; try discriminate;
    repeat match goal with
           | |- context [if ?c then _ else _] => destruct c; simpl
           | |- context [match ?c with Some _ => _ | None => _ end] =>
               destruct c; simpl
           end; discriminate.
Qed.

End TransportFacts.

(** C6, at the body [null]: the body is JSON and has no [error] field, and
    yet [sendApiRequest] raises, a [TypeError] from the test
    ["error" in response], instead of returning the parsed [None]. *)
Theorem sendApiRequest_null_body (url : string) (body : value) :
  client.sendApiRequest (always VNone) url body = Raise TypeError.
Proof. reflexivity. Qed.

(** *** Absent responses *)

(** C3, as the code has it: on an absent response [getSystems] returns the
    empty list, while [getRoutes], like [getSystemAlerts], returns [None]. *)
Theorem absent_response_sentinels (system : TransportationSystem.t) :
  client.getSystemAlerts_response system VNone = Ok None /\
  client.getSystems_response VNone = Ok [] /\
  client.getRoutes_response system VNone = Ok None.
Proof. repeat split. Qed.

(** C3 as stated, with [getRoutes] returning an empty sequence, fails. *)
Lemma getRoutes_absent_is_not_empty :
  ~ (client.getSystemAlerts_response example_system VNone = Ok None /\
     client.getSystems_response VNone = Ok [] /\
     client.getRoutes_response example_system VNone = Ok (Some [])).
Proof. intros (_ & _ & H). discriminate H. Qed.

(** *** The Route constructor *)

(** C10: the object [Route.__init__] builds is the same whatever
    [timezone] is passed, and every other argument is stored as given. *)
Theorem Route_init_discards_timezone
  (id groupId groupColor name shortName nameOrig fullname myid mapApp archive
   goPrefixRouteName goShowSchedule outdated distance latitude longitude
   timezone serviceTime serviceTimeShort systemId timezone' : value)
  (system : option TransportationSystem.t) :
  let r := Route.init id groupId groupColor name shortName nameOrig fullname
             myid mapApp archive goPrefixRouteName goShowSchedule outdated
             distance latitude longitude timezone serviceTime
             serviceTimeShort systemId system in
  r = Route.init id groupId groupColor name shortName nameOrig fullname
        myid mapApp archive goPrefixRouteName goShowSchedule outdated
        distance latitude longitude timezone' serviceTime
        serviceTimeShort systemId system /\
  r = Route.mk id groupId groupColor name shortName nameOrig fullname
        myid mapApp archive goPrefixRouteName goShowSchedule outdated
        distance latitude longitude serviceTime serviceTimeShort systemId
        system /\
  Route.id r = id /\ Route.groupId r = groupId /\
  Route.groupColor r = groupColor /\ Route.name r = name /\
  Route.shortName r = shortName /\ Route.nameOrig r = nameOrig /\
  Route.fullname r = fullname /\ Route.myid r = myid /\
  Route.mapApp r = mapApp /\ Route.archive r = archive /\
  Route.goPrefixRouteName r = goPrefixRouteName /\
  Route.goShowSchedule r = goShowSchedule /\
  Route.outdated r = outdated /\ Route.distance r = distance /\
  Route.latitude r = latitude /\ Route.longitude r = longitude /\
  Route.serviceTime r = serviceTime /\
  Route.serviceTimeShort r = serviceTimeShort /\
  Route.systemId r = systemId /\ Route.system r = system.
Proof. repeat split. Qed.

(** *** Defaulting missing keys *)

Lemma existsb_keys {A} (k : string) (d : list (string * A)) :
  existsb (String.eqb k) (dict_keys d) = dict_mem k d.
Proof.
  unfold dict_mem. induction d as [|[k0 v0] d IH]; simpl; [reflexivity|].
  destruct (String.eqb k k0); simpl; auto.
Qed.

Lemma default_keys_dict (keys : list string) (d : list (string * value)) :
  client.default_keys keys (VDict d) = Ok (VDict (with_defaults keys d)).
Proof.
  unfold client.default_keys, with_defaults.
  revert d; induction keys as [|k keys IH]; intros d; simpl; [reflexivity|].
  rewrite existsb_keys. unfold default_step at 2.
  destruct (dict_mem k d); simpl; apply IH.
Qed.

Lemma default_items_dict (keys : list string) (d : list (string * value)) :
  client.default_items keys (VDict d) = Ok (VDict (with_defaults keys d)).
Proof.
  unfold client.default_items, with_defaults.
  revert d; induction keys as [|k keys IH]; intros d; simpl; [reflexivity|].
  unfold default_step at 2.
  destruct (dict_mem k d); simpl; apply IH.
Qed.

Lemma with_defaults_get (keys : list string) (d : list (string * value))
  (k : string) :
  dict_get k (with_defaults keys d)
  = match dict_get k d with
    | Some v => Some v
    | None => if existsb (String.eqb k) keys then Some VNone else None
    end.
Proof.
  unfold with_defaults.
  revert d; induction keys as [|k0 keys IH]; intros d; simpl.
  - destruct (dict_get k d); reflexivity.
  - rewrite IH. unfold default_step, dict_mem.
    destruct (dict_get k0 d) as [v0|] eqn:E0.
    + destruct (dict_get k d) eqn:E; [reflexivity|].
      destruct (String.eqb k k0) eqn:Ek; [|reflexivity].
      apply String.eqb_eq in Ek; subst k0. congruence.
    + rewrite dict_get_set.
      destruct (String.eqb k k0) eqn:Ek.
      * apply String.eqb_eq in Ek; subst k0. rewrite E0. reflexivity.
      * destruct (dict_get k d); reflexivity.
Qed.

(** After the loop, a listed key reads as the raw field or [None]. *)
Lemma with_defaults_field (keys : list string) (d : list (string * value))
  (k : string) :
  existsb (String.eqb k) keys = true ->
  py_getitem (VDict (with_defaults keys d)) k = Ok (field d k).
Proof.
  intros H. unfold py_getitem, field. rewrite with_defaults_get, H.
  destruct (dict_get k d); reflexivity.
Qed.

(** *** Vehicles *)

Ltac inv_binds H :=
  repeat (apply bind_Ok in H;
          let a := fresh "a" in
          let Ha := fresh "Ha" in
          destruct H as (a & Ha & H)).

Lemma getVehicles_vehicle_record (system : TransportationSystem.t)
  (d : list (string * value)) (rest : list value) :
  client.getVehicles_vehicle system (VList (VDict d :: rest))
  = Ok (vehicle_of_record system d).
Proof.
  unfold client.getVehicles_vehicle. simpl py_index. cbn [bind ret].
  rewrite default_items_dict. cbn [bind].
  rewrite !with_defaults_field by reflexivity. reflexivity.
Qed.

Lemma getVehicles_loop (system : TransportationSystem.t)
  (buses : list (string * value)) (acc : list Vehicle.t) :
  (forall k entry, In (k, entry) buses -> k <> "-1" ->
                   exists d rest, entry = VList (VDict d :: rest)) ->
  foldM (fun allVehicles '(vehicleId, vehicle) =>
           if String.eqb vehicleId "-1" then ret allVehicles
           else
             v <- client.getVehicles_vehicle system vehicle ;;
             ret (allVehicles ++ [v]))
        buses acc
  = Ok (acc ++ map (fun '(_, entry) =>
                      vehicle_of_record system (first_record entry))
                   (filter (fun '(k, _) => negb (String.eqb k "-1")) buses)).
Proof.
  revert acc; induction buses as [|[k entry] buses IH]; intros acc Hwf; simpl.
  - rewrite app_nil_r. reflexivity.
  - destruct (String.eqb k "-1") eqn:Ek; simpl.
    + apply IH. intros; eapply Hwf; eauto. right; eauto.
    + apply String.eqb_neq in Ek.
      destruct (Hwf k entry (or_introl eq_refl) Ek) as (d & rest & ->).
      rewrite getVehicles_vehicle_record. simpl.
      rewrite IH by (intros; eapply Hwf; eauto; right; eauto).
      rewrite <- app_assoc. reflexivity.
Qed.

(** C8: when every entry of [buses] other than the one keyed ["-1"] is an
    array whose first element is a record, [getVehicles] returns, in order,
    the vehicle of the first element of each entry whose key is not ["-1"]:
    missing fields are [None] and the five renames are applied.  Nothing
    comes from the entry keyed ["-1"], whatever it holds. *)
Theorem getVehicles_skips_sentinel (system : TransportationSystem.t)
  (vehicles : value) (buses : list (string * value)) :
  py_getitem vehicles "buses" = Ok (VDict buses) ->
  (forall k entry, In (k, entry) buses -> k <> "-1" ->
                   exists d rest, entry = VList (VDict d :: rest)) ->
  client.getVehicles_response system vehicles
  = Ok (Some (map (fun '(_, entry) =>
                     vehicle_of_record system (first_record entry))
                  (filter (fun '(k, _) => negb (String.eqb k "-1")) buses))).
Proof.
  intros Hb Hwf. unfold client.getVehicles_response.
  destruct (py_eq vehicles VNone) eqn:E.
  - apply py_eq_None in E; subst. discriminate Hb.
  - rewrite Hb. cbn [bind py_items ret].
    rewrite (getVehicles_loop system buses [] Hwf). reflexivity.
Qed.

Lemma getVehicles_skips_sentinel_witness :
  client.getVehicles_response example_system example_vehicles_response
  = Ok (Some [vehicle_of_record example_system
                [("busId", VInt 12); ("busName", VStr "3021");
                 ("route", VStr "Loop"); ("paxLoad100", VInt 40)]]).
Proof.
  apply (getVehicles_skips_sentinel example_system example_vehicles_response
           [("-1", VList [VDict [("busId", VInt (-1))]]);
            ("12", VList [VDict [("busId", VInt 12); ("busName", VStr "3021");
                                 ("route", VStr "Loop");
                                 ("paxLoad100", VInt 40)]])]).
  - reflexivity.
  - intros k entry [H|[H|[]]] Hk; injection H as <- <-.
    + exfalso; apply Hk; reflexivity.
    + eexists _, _; reflexivity.
Defined.

(** *** The back-reference to the system *)

Lemma getRoutes_route_system (system : TransportationSystem.t)
  (route : value) (r : Route.t) :
  client.getRoutes_route system route = Ok r -> Route.system r = Some system.
Proof.
  unfold client.getRoutes_route. intros H. inv_binds H.
  injection H as <-. reflexivity.
Qed.

Lemma getStops_stop_system (system : TransportationSystem.t)
  (routesAndStops : list (string * list value)) (stop : value) (s : Stop.t) :
  client.getStops_stop system routesAndStops stop = Ok s ->
  Stop.system s = Some system.
Proof.
  unfold client.getStops_stop. intros H. inv_binds H.
  injection H as <-. reflexivity.
Qed.

Lemma getSystemAlerts_msg_system (system : TransportationSystem.t)
  (errorMsg : value) (a : SystemAlert.t) :
  client.getSystemAlerts_msg system errorMsg = Ok a ->
  SystemAlert.system a = Some system.
Proof.
  unfold client.getSystemAlerts_msg. intros H. inv_binds H.
  injection H as <-. reflexivity.
Qed.

Lemma getVehicles_vehicle_system (system : TransportationSystem.t)
  (vehicle : value) (v : Vehicle.t) :
  client.getVehicles_vehicle system vehicle = Ok v ->
  Vehicle.system v = Some system.
Proof.
  unfold client.getVehicles_vehicle. intros H. inv_binds H.
  injection H as <-. reflexivity.
Qed.

Lemma Forall2_Forall_r {A B} (R : A -> B -> Prop) (P : B -> Prop)
  (xs : list A) (ys : list B) :
  (forall x y, R x y -> P y) -> Forall2 R xs ys -> Forall P ys.
Proof.
  intros HR H. induction H; constructor; eauto.
Qed.

Lemma getRoutes_response_system (system : TransportationSystem.t)
  (routes : value) (l : list Route.t) :
  client.getRoutes_response system routes = Ok (Some l) ->
  Forall (fun r => Route.system r = Some system) l.
Proof.
  unfold client.getRoutes_response.
  destruct (py_eq routes VNone); [discriminate|]. intros H. inv_binds H.
  injection H as <-.
  match goal with
  | Hm : mapM _ _ = Ok ?l |- Forall _ ?l => apply mapM_Ok in Hm;
      eapply Forall2_Forall_r; [|exact Hm]
  end.
  intros x y. apply getRoutes_route_system.
Qed.

Lemma getStops_response_system (system : TransportationSystem.t)
  (stops : value) (l : list Stop.t) :
  client.getStops_response system stops = Ok (Some l) ->
  Forall (fun s => Stop.system s = Some system) l.
Proof.
  unfold client.getStops_response.
  destruct (py_eq stops VNone); [discriminate|]. intros H. inv_binds H.
  injection H as <-.
  match goal with
  | Hm : mapM _ _ = Ok ?l |- Forall _ ?l => apply mapM_Ok in Hm;
      eapply Forall2_Forall_r; [|exact Hm]
  end.
  intros [k x] y. apply getStops_stop_system.
Qed.

Lemma getSystemAlerts_response_system (system : TransportationSystem.t)
  (errorMsgs : value) (l : list SystemAlert.t) :
  client.getSystemAlerts_response system errorMsgs = Ok (Some l) ->
  Forall (fun a => SystemAlert.system a = Some system) l.
Proof.
  unfold client.getSystemAlerts_response.
  destruct (py_eq errorMsgs VNone); [discriminate|]. intros H. inv_binds H.
  injection H as <-.
  match goal with
  | Hm : mapM _ _ = Ok ?l |- Forall _ ?l => apply mapM_Ok in Hm;
      eapply Forall2_Forall_r; [|exact Hm]
  end.
  intros x y. apply getSystemAlerts_msg_system.
Qed.

Lemma getVehicles_loop_system (system : TransportationSystem.t)
  (buses : list (string * value)) (acc l : list Vehicle.t) :
  foldM (fun allVehicles '(vehicleId, vehicle) =>
           if String.eqb vehicleId "-1" then ret allVehicles
           else
             v <- client.getVehicles_vehicle system vehicle ;;
             ret (allVehicles ++ [v]))
        buses acc = Ok l ->
  Forall (fun v => Vehicle.system v = Some system) acc ->
  Forall (fun v => Vehicle.system v = Some system) l.
Proof.
  revert acc; induction buses as [|[k entry] buses IH]; simpl; intros acc H Hacc.
  - injection H as <-. exact Hacc.
  - apply bind_Ok in H as (acc' & Hstep & H).
    apply (IH acc' H).
    destruct (String.eqb k "-1").
    + injection Hstep as <-. exact Hacc.
    + apply bind_Ok in Hstep as (v & Hv & Hstep). injection Hstep as <-.
      apply Forall_app; split; [exact Hacc|].
      constructor; [|constructor].
      eapply getVehicles_vehicle_system; eauto.
Qed.

Lemma getVehicles_response_system (system : TransportationSystem.t)
  (vehicles : value) (l : list Vehicle.t) :
  client.getVehicles_response system vehicles = Ok (Some l) ->
  Forall (fun v => Vehicle.system v = Some system) l.
Proof.
  unfold client.getVehicles_response.
  destruct (py_eq vehicles VNone); [discriminate|]. intros H. inv_binds H.
  injection H as <-.
  eapply getVehicles_loop_system; eauto.
Qed.

(** C9: whatever the server replies, every [Route], [Stop], [Vehicle] and
    [SystemAlert] a listing function returns for a system refers back to
    that system. *)
Theorem listings_refer_to_their_system
  (post : string -> value -> client.reply) (system : TransportationSystem.t) :
  (forall appVersion amount l,
      client.getRoutes post system appVersion amount = Ok (Some l) ->
      Forall (fun r => Route.system r = Some system) l) /\
  (forall appVersion sA l,
      client.getStops post system appVersion sA false = Ok (inr (Some l)) ->
      Forall (fun s => Stop.system s = Some system) l) /\
  (forall appVersion l,
      client.getVehicles post system appVersion = Ok (Some l) ->
      Forall (fun v => Vehicle.system v = Some system) l) /\
  (forall appVersion amount routesAmount l,
      client.getSystemAlerts post system appVersion amount routesAmount
      = Ok (Some l) ->
      Forall (fun a => SystemAlert.system a = Some system) l).
Proof.
  repeat split.
  - intros appVersion amount l H. unfold client.getRoutes in H.
    apply bind_Ok in H as (r & _ & H).
    eapply getRoutes_response_system; eauto.
  - intros appVersion sA l H. unfold client.getStops in H.
    apply bind_Ok in H as (r & _ & H).
    apply bind_Ok in H as (r' & H & E). injection E as ->.
    eapply getStops_response_system; eauto.
  - intros appVersion l H. unfold client.getVehicles in H.
    apply bind_Ok in H as (r & _ & H).
    eapply getVehicles_response_system; eauto.
  - intros appVersion amount routesAmount l H.
    unfold client.getSystemAlerts in H.
    apply bind_Ok in H as (r & _ & H).
    eapply getSystemAlerts_response_system; eauto.
Qed.

Lemma listings_refer_to_their_system_witness :
  (exists l, client.getRoutes (always example_reply) example_system 1 1
             = Ok (Some l) /\ l <> []
             /\ Forall (fun r => Route.system r = Some example_system) l) /\
  (exists l, client.getStops (always example_reply) example_system 2 1 false
             = Ok (inr (Some l)) /\ l <> []
             /\ Forall (fun s => Stop.system s = Some example_system) l) /\
  (exists l, client.getVehicles (always example_reply) example_system 2
             = Ok (Some l) /\ l <> []
             /\ Forall (fun v => Vehicle.system v = Some example_system) l) /\
  (exists l, client.getSystemAlerts (always example_reply) example_system 1 1 0
             = Ok (Some l) /\ l <> []
             /\ Forall (fun a => SystemAlert.system a = Some example_system) l).
Proof.
  destruct (listings_refer_to_their_system (always example_reply)
              example_system) as (H1 & H2 & H3 & H4).
  split; [|split; [|split]]; eexists; (split; [vm_compute; reflexivity|]);
    (split; [discriminate|]).
  - apply (H1 1%Z 1%Z). reflexivity.
  - apply (H2 2%Z 1%Z). reflexivity.
  - apply (H3 2%Z). reflexivity.
  - apply (H4 1%Z 1%Z 0%Z). reflexivity.
Defined.

(** *** Wrapped and flat route lists *)

(** A list of route records does not contain the string ["all"]. *)
Lemma route_list_has_no_all (l : list value) :
  Forall (fun route => exists d, route = VDict d) l ->
  py_in_str "all" (VList l) = Ok false.
Proof.
  intros H. simpl. unfold ret. f_equal.
  induction H as [|route l (d & ->) _ IH]; simpl; auto.
Qed.

(** C4: for a payload [R] in which the test ["all" in R] is false, as it is
    for every list of route records, [getRoutes] gives the same outcome on
    [{"all": R}] and on [R], the same routes or the same exception. *)
Theorem getRoutes_wrapped_or_flat (system : TransportationSystem.t)
  (R : value) :
  py_in_str "all" R = Ok false ->
  client.getRoutes_response system (VDict [("all", R)])
  = client.getRoutes_response system R.
Proof.
  intros H. unfold client.getRoutes_response.
  destruct (py_eq R VNone) eqn:E.
  - apply py_eq_None in E; subst. discriminate H.
  - rewrite H. reflexivity.
Qed.

Lemma getRoutes_wrapped_or_flat_witness :
  client.getRoutes_response example_system
    (VDict [("all", VList [example_route_record])])
  = client.getRoutes_response example_system (VList [example_route_record]).
Proof.
  apply (getRoutes_wrapped_or_flat example_system
           (VList [example_route_record])).
  reflexivity.
Defined.

(** *** Stops of a route *)

Lemma fold_left_keep {A} (keep : A -> bool) (l acc : list A) :
  fold_left (fun acc x => if keep x then acc ++ [x] else acc) l acc
  = acc ++ filter keep l.
Proof.
  revert acc; induction l as [|x l IH]; intros acc; simpl.
  - rewrite app_nil_r. reflexivity.
  - rewrite IH. destruct (keep x); [|reflexivity].
    rewrite <- app_assoc. reflexivity.
Qed.

Lemma list_contains_keys (x : value) (stop : Stop.t) :
  list_contains x (map VStr (dict_keys (Stop.routesAndPositions stop))) = true
  <-> keyed_by x stop.
Proof.
  unfold list_contains, keyed_by. rewrite existsb_exists. split.
  - intros (item & Hin & Heq). apply in_map_iff in Hin as (k & <- & Hk).
    eauto.
  - intros (k & Hk & Heq). exists (VStr k). split; [|exact Heq].
    apply in_map. exact Hk.
Qed.

(** C5: on a stop listing [allStops] of the owning system,
    [Route.getStops] returns, in the order of the listing, exactly the stops
    keyed by the route's [myid], [id] or [groupId]; a stop keyed by the
    [groupId] is among them whatever [id] and [myid] are. *)
Theorem Route_getStops_by_any_identifier
  (post : string -> value -> client.reply) (self : Route.t)
  (system : TransportationSystem.t) (allStops : list Stop.t) :
  Route.system self = Some system ->
  client.system_getStops post system = Ok (Some allStops) ->
  exists keep,
    (forall stop, keep stop = true <-> serves self stop) /\
    client.Route_getStops post self = Ok (filter keep allStops) /\
    (forall stop, In stop allStops -> keyed_by (Route.groupId self) stop ->
                  In stop (filter keep allStops)).
Proof.
  intros Hsys Hall.
  set (keys := fun stop =>
                 map VStr (dict_keys (Stop.routesAndPositions stop))).
  set (keep := fun stop =>
                 list_contains (Route.myid self) (keys stop)
                 || list_contains (Route.id self) (keys stop)
                 || list_contains (Route.groupId self) (keys stop)).
  exists keep.
  assert (Hkeep : forall stop, keep stop = true <-> serves self stop).
  { intros stop. unfold keep, serves, keys.
    rewrite !orb_true_iff, !list_contains_keys. tauto. }
  split; [exact Hkeep|]. split.
  - unfold client.Route_getStops, Route.getStops.
    rewrite Hsys, Hall. cbn [bind ret].
    change (Ok (fold_left (fun acc x => if keep x then acc ++ [x] else acc)
                          allStops [])
            = Ok (filter keep allStops)).
    rewrite fold_left_keep. reflexivity.
  - intros stop Hin Hg. apply filter_In. split; [exact Hin|].
    apply Hkeep. right; right; exact Hg.
Qed.

Lemma Route_getStops_by_any_identifier_witness :
  exists keep,
    (forall stop, keep stop = true <-> serves example_route stop) /\
    client.Route_getStops (always example_stops_response) example_route
    = Ok (filter keep example_stops) /\
    (forall stop,
        In stop example_stops ->
        keyed_by (Route.groupId example_route) stop ->
        In stop (filter keep example_stops)).
Proof.
  apply (Route_getStops_by_any_identifier (always example_stops_response)
           example_route example_system example_stops).
  - reflexivity.
  - vm_compute. reflexivity.
Defined.

(** *** System records without a flag *)

(** The loop that turns empty strings into [None] keeps the record a dict
    and adds no key. *)
Lemma blank_loop_absent (parameters : list string) (d : list (string * value))
  (x : value) :
  foldM (fun system parameter =>
           v <- py_getitem system parameter ;;
           if py_eq v (VStr "") then py_setitem system parameter VNone
           else ret system)
        parameters (VDict d) = Ok x ->
  exists d', x = VDict d' /\
             forall k, dict_get k d = None -> dict_get k d' = None.
Proof.
  revert d; induction parameters as [|p ps IH]; simpl; intros d H.
  - injection H as <-. eauto.
  - apply bind_Ok in H as (y & Hstep & H).
    destruct (dict_get p d) as [v|] eqn:Ep; [|discriminate].
    simpl in Hstep. destruct (py_eq v (VStr "")).
    + injection Hstep as <-.
      apply IH in H as (d' & -> & Hd'). exists d'. split; [reflexivity|].
      intros k Hk. apply Hd'. rewrite dict_get_set.
      destruct (String.eqb k p) eqn:E; [|exact Hk].
      apply String.eqb_eq in E; subst. congruence.
    + injection Hstep as <-. apply IH in H. exact H.
Qed.

(** A record without [logo] never becomes a system: the key is set to
    [None] and [bool(int(None))] raises, unless an earlier field already
    did. *)
Lemma getSystems_system_needs_logo (d : list (string * value))
  (t : TransportationSystem.t) :
  dict_get "logo" d = None ->
  client.getSystems_system (VDict d) <> Ok t.
Proof.
  intros Hlogo H. unfold client.getSystems_system in H.
  apply bind_Ok in H as (ks & Hks & H). injection Hks as <-.
  apply bind_Ok in H as (x & Hblank & H).
  apply blank_loop_absent in Hblank as (d' & -> & Hd').
  apply bind_Ok in H as (x & Hdef & H).
  rewrite default_keys_dict in Hdef.
  assert (Ex : x = VDict (with_defaults
        ["goAgencyName"; "email"; "email"; "goTestMode"; "name2"; "homepage";
         "logo"; "goRoutePlannerEnabled"; "goColor"; "goSupportEmail";
         "goSharedCode"; "goAuthenticationType"] d')) by congruence.
  subst x. clear Hdef.
  inv_binds H.
  match goal with
  | Hl : bind (py_getitem _ "logo") _ = Ok _ |- _ =>
      rewrite with_defaults_field in Hl by reflexivity;
      unfold field in Hl; rewrite (Hd' _ Hlogo) in Hl; discriminate Hl
  end.
Qed.

(** C2, at a record that has every flag but [logo]: the claim asks for a
    system whose [logo] is [None]; [getSystems] raises a [TypeError]. *)
Theorem getSystems_record_without_logo :
  client.getSystems (always (VDict [("all", VList [record_without_logo])]))
                    2 1
  = Raise TypeError.
Proof. vm_compute. reflexivity. Qed.

(** The uncoerced optional fields do default to [None]. *)
Lemma getSystems_record_without_homepage :
  client.getSystems_response
    (VDict [("all",
             VList [VDict [("id", VStr "1270"); ("fullname", VStr "");
                           ("username", VStr "umich"); ("goTestMode", VStr "0");
                           ("name2", VStr "0"); ("logo", VStr "1");
                           ("goRoutePlannerEnabled", VStr "1");
                           ("goAuthenticationType", VStr "0")]])])
  = Ok [TransportationSystem.mk 1270%Z None (Some "umich") None None
          (Some false) (Some false) None (Some true) (Some true) None None
          None (Some false)].
Proof. vm_compute. reflexivity. Qed.

(** *** Stop listings *)

Lemma py_eq_empty_list (v : value) : py_eq v (VList []) = true -> v = VList [].
Proof.
  destruct v as [| | | | |l|]; simpl; try discriminate.
  destruct l; [reflexivity | discriminate].
Qed.

(** The listing, once the reply is known to have both collections. *)
Lemma getStops_response_unfold (system : TransportationSystem.t)
  (top : list (string * value)) (r s : value) :
  dict_get "routes" top = Some r ->
  dict_get "stops" top = Some s ->
  client.getStops_response system (VDict top)
  = (routes <- items_or_empty r ;;
     routesAndStops <- client.build_routesAndStops routes ;;
     records <- items_or_empty s ;;
     allStops <- mapM (fun '(_, stop) =>
                         client.getStops_stop system routesAndStops stop)
                      records ;;
     ret (Some allStops)).
Proof.
  intros Hr Hs. unfold client.getStops_response, items_or_empty.
  change (py_eq (VDict top) VNone) with false. cbv iota.
  unfold py_getitem at 1. rewrite Hr. cbn [bind ret].
  destruct (py_eq r (VList [])) eqn:Er;
    cbn [py_setitem bind ret py_getitem];
    rewrite ?dict_get_set; cbn [String.eqb Ascii.eqb Bool.eqb];
    rewrite Hs; cbn [bind ret];
    destruct (py_eq s (VList [])) eqn:Es;
    cbn [py_setitem bind ret py_getitem];
    rewrite ?dict_get_set; cbn [String.eqb Ascii.eqb Bool.eqb];
    rewrite ?Hr, ?Hs; cbn [bind ret py_items]; reflexivity.
Qed.

Lemma getStops_stop_no_routes (system : TransportationSystem.t)
  (stop : value) (s : Stop.t) :
  client.getStops_stop system [] stop = Ok s ->
  Stop.routesAndPositions s = [].
Proof.
  unfold client.getStops_stop. intros H.
  apply bind_Ok in H as (rap & Hrap & H).
  injection Hrap as <-. inv_binds H. injection H as <-. reflexivity.
Qed.

Lemma items_or_empty_empty (v : value) :
  v = VList [] \/ v = VDict [] -> items_or_empty v = Ok [].
Proof. intros [->| ->]; reflexivity. Qed.

(** C7, as the code has it.  In a reply that has both collections:
    with [stops] empty ([[]] or [{}]) the result is the empty list as soon
    as the routes are gone through without error, which is the case when
    [routes] is empty too; with [routes] empty the listing goes on as if
    there were no route, so that no error comes from the routes and every
    stop record gives a stop whose [routesAndPositions] is empty. *)
Theorem getStops_empty_collections (system : TransportationSystem.t)
  (top : list (string * value)) (r s : value) :
  dict_get "routes" top = Some r ->
  dict_get "stops" top = Some s ->
  ((r = VList [] \/ r = VDict []) -> (s = VList [] \/ s = VDict []) ->
   client.getStops_response system (VDict top) = Ok (Some [])) /\
  ((s = VList [] \/ s = VDict []) ->
   forall routesAndStops,
     (routes <- items_or_empty r ;; client.build_routesAndStops routes)
     = Ok routesAndStops ->
     client.getStops_response system (VDict top) = Ok (Some [])) /\
  ((r = VList [] \/ r = VDict []) ->
   client.getStops_response system (VDict top)
   = (records <- items_or_empty s ;;
      allStops <- mapM (fun '(_, stop) => client.getStops_stop system [] stop)
                       records ;;
      ret (Some allStops)) /\
   forall allStops,
     client.getStops_response system (VDict top) = Ok (Some allStops) ->
     Forall (fun stop => Stop.routesAndPositions stop = []) allStops /\
     List.length allStops = List.length (raw_stops (VDict top))).
Proof.
  intros Hr Hs.
  assert (Hstops_empty :
            (s = VList [] \/ s = VDict []) ->
            forall routesAndStops,
              (routes <- items_or_empty r ;;
               client.build_routesAndStops routes) = Ok routesAndStops ->
              client.getStops_response system (VDict top) = Ok (Some [])).
  { intros Hse ras Hras.
    rewrite (getStops_response_unfold system top r s Hr Hs).
    apply bind_Ok in Hras as (routes & Hroutes & Hras).
    rewrite Hroutes. cbn [bind]. rewrite Hras. cbn [bind].
    rewrite (items_or_empty_empty s Hse). reflexivity. }
  assert (Hroutes_empty :
            (r = VList [] \/ r = VDict []) ->
            client.getStops_response system (VDict top)
            = (records <- items_or_empty s ;;
               allStops <- mapM (fun '(_, stop) =>
                                   client.getStops_stop system [] stop)
                                records ;;
               ret (Some allStops))).
  { intros Hre.
    rewrite (getStops_response_unfold system top r s Hr Hs).
    rewrite (items_or_empty_empty r Hre). reflexivity. }
  split; [|split].
  - intros Hre Hse. apply (Hstops_empty Hse []).
    rewrite (items_or_empty_empty r Hre). reflexivity.
  - exact Hstops_empty.
  - intros Hre. split; [exact (Hroutes_empty Hre)|].
    intros allStops H. rewrite (Hroutes_empty Hre) in H.
    apply bind_Ok in H as (records & Hrec & H).
    apply bind_Ok in H as (l & Hl & H). injection H as <-.
    apply mapM_Ok in Hl.
    assert (Hraw : raw_stops (VDict top) = records).
    { unfold raw_stops, py_getitem. rewrite Hs. unfold items_or_empty in Hrec.
      destruct (py_eq s (VList [])) eqn:E.
      - apply py_eq_empty_list in E; subst s. injection Hrec as <-.
        reflexivity.
      - destruct s; try discriminate Hrec. injection Hrec as <-.
        reflexivity. }
    split.
    + eapply Forall2_Forall_r; [|exact Hl].
      intros [k stop] st. apply getStops_stop_no_routes.
    + rewrite Hraw. symmetry. eapply Forall2_length; eauto.
Qed.

Lemma getStops_empty_collections_witness :
  client.getStops_response example_system routeless_stops_response
  = (records <- items_or_empty
                  (VDict [("ID1", VDict [("id", VStr "s1");
                                         ("name", VStr "Union");
                                         ("latitude", VInt 4);
                                         ("longitude", VInt 5)])]) ;;
     allStops <- mapM (fun '(_, stop) =>
                         client.getStops_stop example_system [] stop)
                      records ;;
     ret (Some allStops)).
Proof.
  refine (proj1 (proj2 (proj2
           (getStops_empty_collections example_system
              [("routes", VList []);
               ("stops",
                VDict [("ID1", VDict [("id", VStr "s1");
                                      ("name", VStr "Union");
                                      ("latitude", VInt 4);
                                      ("longitude", VInt 5)])])]
              (VList []) _ _ _)) _)).
  - reflexivity.
  - reflexivity.
  - left; reflexivity.
Defined.

(** C7 as stated fails when only [routes] is empty: the stops are
    returned, each without routes. *)
Lemma getStops_empty_routes_has_stops :
  py_getitem routeless_stops_response "routes" = Ok (VList []) /\
  client.getStops_response example_system routeless_stops_response
  = Ok (Some [Stop.mk (VStr "s1") [] VNone (VStr "Union") (VInt 4) (VInt 5)
                VNone (Some example_system)]) /\
  client.getStops_response example_system routeless_stops_response
  <> Ok (Some []).
Proof.
  split; [reflexivity|]. split; [vm_compute; reflexivity|].
  vm_compute. discriminate.
Qed.

(** *** The route-to-stops dictionary *)

Lemma dict_get_app {A} (k : string) (d d' : list (string * A)) :
  dict_get k (d ++ d')
  = match dict_get k d with Some v => Some v | None => dict_get k d' end.
Proof.
  induction d as [|[k0 v0] d IH]; simpl; [reflexivity|].
  destruct (String.eqb k k0); auto.
Qed.

Lemma dict_set_absent {A} (k : string) (v : A) (d : list (string * A)) :
  dict_get k d = None -> dict_set k v d = d ++ [(k, v)].
Proof.
  induction d as [|[k0 v0] d IH]; simpl; [reflexivity|].
  destruct (String.eqb k k0) eqn:E; [discriminate|].
  intros H. rewrite IH by exact H. reflexivity.
Qed.

Lemma dict_set_last {A} (k : string) (v v0 : A) (d : list (string * A)) :
  dict_get k d = None -> dict_set k v (d ++ [(k, v0)]) = d ++ [(k, v)].
Proof.
  induction d as [|[k1 v1] d IH]; simpl.
  - rewrite String.eqb_refl. reflexivity.
  - destruct (String.eqb k k1) eqn:E; [discriminate|].
    intros H. rewrite IH by exact H. reflexivity.
Qed.

Lemma dict_set_set {A} (k : string) (v v' : A) (d : list (string * A)) :
  dict_set k v (dict_set k v' d) = dict_set k v d.
Proof.
  induction d as [|[k0 v0] d IH]; simpl.
  - rewrite String.eqb_refl. reflexivity.
  - destruct (String.eqb k k0) eqn:E; simpl; rewrite E; [reflexivity|].
    rewrite IH. reflexivity.
Qed.

Lemma dict_get_None_keys {A} (k : string) (d : list (string * A)) :
  dict_get k d = None <-> ~ In k (dict_keys d).
Proof.
  induction d as [|[k0 v0] d IH]; simpl; [tauto|].
  destruct (String.eqb k k0) eqn:E.
  - apply String.eqb_eq in E; subst. split; [discriminate|]. tauto.
  - apply String.eqb_neq in E. rewrite IH. split.
    + intros H [H'|H']; [congruence | tauto].
    + tauto.
Qed.

Lemma dict_get_map {A B} (g : A -> B) (k : string) (d : list (string * A)) :
  dict_get k (map (fun '(k', v) => (k', g v)) d) = option_map g (dict_get k d).
Proof.
  induction d as [|[k0 v0] d IH]; simpl; [reflexivity|].
  destruct (String.eqb k k0); auto.
Qed.

(** The stop ids the inner loop appends for the entries of one route. *)
Lemma stops_of_route_loop (routeId : string) (entries : list value)
  (cur res : list (string * list value)) (l0 : list value) :
  dict_get routeId cur = Some l0 ->
  foldM (fun routesAndStops stop =>
           if py_eq stop (VInt 0%Z) then ret routesAndStops
           else
             x <- py_index stop 1 ;;
             client.append_at routeId x routesAndStops)
        entries cur = Ok res ->
  res = dict_set routeId
          (l0 ++ flat_map (fun entry => if py_eq entry (VInt 0%Z) then []
                                        else second entry) entries)
          cur.
Proof.
  revert cur l0; induction entries as [|e entries IH]; simpl; intros cur l0 Hget H.
  - injection H as <-. rewrite app_nil_r.
    clear -Hget. induction cur as [|[k0 v0] cur IH]; simpl in *; [discriminate|].
    destruct (String.eqb routeId k0) eqn:E.
    + apply String.eqb_eq in E; subst. congruence.
    + rewrite <- IH by exact Hget. reflexivity.
  - apply bind_Ok in H as (cur' & Hstep & H).
    destruct (py_eq e (VInt 0%Z)).
    + injection Hstep as <-. simpl. eapply IH; eauto.
    + apply bind_Ok in Hstep as (x & Hx & Hstep).
      unfold client.append_at in Hstep. rewrite Hget in Hstep.
      injection Hstep as <-.
      unfold second at 1. rewrite Hx.
      rewrite (IH _ (l0 ++ [x])) with (2 := H).
      * rewrite dict_set_set, <- app_assoc. reflexivity.
      * rewrite dict_get_set, String.eqb_refl. reflexivity.
Qed.

(** [routesAndStops] maps each route id to the route's stop-id list, in the
    order of the raw mapping, whose keys are distinct as those of any
    dict. *)
Lemma build_routesAndStops_from (routes : list (string * value))
  (acc ras : list (string * list value)) :
  NoDup (dict_keys routes) ->
  (forall k, In k (dict_keys routes) -> dict_get k acc = None) ->
  foldM (fun routesAndStops '(routeId, route) =>
           let routesAndStops := dict_set routeId [] routesAndStops in
           entries <- py_slice_from route 2 ;;
           foldM (fun routesAndStops stop =>
                    if py_eq stop (VInt 0%Z) then ret routesAndStops
                    else
                      x <- py_index stop 1 ;;
                      client.append_at routeId x routesAndStops)
                 entries routesAndStops)
        routes acc = Ok ras ->
  ras = acc ++ map (fun '(routeId, route) => (routeId, stop_ids route)) routes.
Proof.
  revert acc; induction routes as [|[rid route] routes IH]; simpl;
    intros acc Hnd Hacc H.
  - injection H as <-. rewrite app_nil_r. reflexivity.
  - apply bind_Ok in H as (acc' & Hstep & H).
    apply bind_Ok in Hstep as (entries & Hent & Hstep).
    assert (Hrid : dict_get rid acc = None) by (apply Hacc; auto).
    rewrite (dict_set_absent rid [] acc Hrid) in Hstep.
    apply (stops_of_route_loop rid entries _ _ []) in Hstep.
    2:{ rewrite dict_get_app, Hrid. simpl. rewrite String.eqb_refl.
        reflexivity. }
    rewrite (dict_set_last rid _ [] acc Hrid) in Hstep. simpl in Hstep.
    inversion Hnd as [|? ? Hnotin Hnd']; subst.
    apply IH in H; [| exact Hnd' |].
    + rewrite H, <- app_assoc. simpl. unfold stop_ids. rewrite Hent.
      reflexivity.
    + intros k Hk. rewrite dict_get_app, (Hacc k) by auto. simpl.
      destruct (String.eqb k rid) eqn:E; [|reflexivity].
      apply String.eqb_eq in E; subst. contradiction.
Qed.

Lemma build_routesAndStops_spec (routes : list (string * value))
  (ras : list (string * list value)) :
  NoDup (dict_keys routes) ->
  client.build_routesAndStops routes = Ok ras ->
  ras = map (fun '(routeId, route) => (routeId, stop_ids route)) routes.
Proof.
  intros Hnd H. apply (build_routesAndStops_from routes [] ras Hnd); auto.
Qed.

(** *** Positions *)

Lemma positions_from_In (y : value) (l : list value) (n p : nat) :
  In p (map fst (filter (fun '(i, x) => py_eq x y)
                        (combine (seq n (List.length l)) l)))
  <-> n <= p /\ exists x, nth_error l (p - n) = Some x /\ py_eq x y = true.
Proof.
  revert n; induction l as [|a l IH]; intros n; simpl.
  - split; [tauto|]. intros (_ & x & H & _). destruct (p - n); discriminate.
  - assert (Hrest :
              In p (map fst (filter (fun '(i, x) => py_eq x y)
                                    (combine (seq (S n) (List.length l)) l)))
              <-> S n <= p /\ exists x, nth_error l (p - S n) = Some x
                                        /\ py_eq x y = true) by apply IH.
    assert (Hhere : n = p \/ S n <= p <-> n <= p) by lia.
    destruct (Nat.eq_dec n p) as [->|Hneq].
    + replace (p - p) with 0 by lia. simpl.
      destruct (py_eq a y) eqn:E; simpl.
      * split; [|auto]. intros _. split; [lia|]. eauto.
      * rewrite Hrest. split; [lia|].
        intros (_ & x & Hx & Hxy). injection Hx as <-. congruence.
    + assert (Hsub : n <= p -> p - n = S (p - S n)) by lia.
      destruct (py_eq a y) eqn:E; simpl; rewrite Hrest; split.
      * intros [H|(H & x & Hx & Hxy)]; [contradiction|].
        split; [lia|]. exists x. rewrite Hsub by lia. auto.
      * intros (H & x & Hx & Hxy). right. split; [lia|].
        exists x. rewrite Hsub in Hx by lia. auto.
      * intros (H & x & Hx & Hxy).
        split; [lia|]. exists x. rewrite Hsub by lia. auto.
      * intros (H & x & Hx & Hxy). split; [lia|].
        exists x. rewrite Hsub in Hx by lia. auto.
Qed.

(** A position is recorded exactly when the list holds, there, a value equal
    to the one looked for. *)
Lemma positions_In (y : value) (l : list value) (p : nat) :
  In p (client.positions y l)
  <-> exists x, nth_error l p = Some x /\ py_eq x y = true.
Proof.
  unfold client.positions. rewrite positions_from_In.
  rewrite Nat.sub_0_r. split; [tauto|]. intros H. split; [lia | exact H].
Qed.

Lemma positions_from_sorted (y : value) (l : list value) (n : nat) :
  StronglySorted lt
    (map fst (filter (fun '(i, x) => py_eq x y)
                     (combine (seq n (List.length l)) l))).
Proof.
  revert n; induction l as [|a l IH]; intros n; simpl; [constructor|].
  destruct (py_eq a y); simpl; [|apply IH].
  constructor; [apply IH|].
  apply Forall_forall. intros p Hp.
  apply positions_from_In in Hp. lia.
Qed.

Lemma positions_sorted (y : value) (l : list value) :
  StronglySorted lt (client.positions y l).
Proof. apply positions_from_sorted. Qed.

Lemma list_contains_In (y : value) (l : list value) :
  list_contains y l = true <-> exists x, In x l /\ py_eq x y = true.
Proof. unfold list_contains. apply existsb_exists. Qed.

(** *** One stop *)

(** On anything but a dict the defaulting loop changes nothing, when it
    does not raise. *)
Lemma default_items_not_dict (keys : list string) (x x' : value) :
  (forall d, x <> VDict d) ->
  client.default_items keys x = Ok x' -> x' = x.
Proof.
  unfold client.default_items. intros Hx.
  induction keys as [|k keys IH]; simpl; intros H.
  - injection H as <-. reflexivity.
  - apply bind_Ok in H as (y & Hstep & H).
    apply bind_Ok in Hstep as (present & Hp & Hstep).
    destruct present; simpl in Hstep.
    + injection Hstep as <-. auto.
    + destruct x; try discriminate Hstep. exfalso. eapply Hx; eauto.
Qed.

(** What [routesAndPositions] holds at the end of its loop. *)
Lemma build_routesAndPositions_loop
  (ras : list (string * list value)) (d : list (string * value))
  (sid : value) (ks : list string) (acc rap : list (string * list nat)) :
  dict_get "id" d = Some sid ->
  foldM (fun routesAndPositions routeId =>
           match dict_get routeId ras with
           | None => Raise KeyError
           | Some l =>
               id <- py_getitem (VDict d) "id" ;;
               if negb (list_contains id l) then ret routesAndPositions
               else
                 id <- py_getitem (VDict d) "id" ;;
                 ret (dict_set routeId (client.positions id l)
                               routesAndPositions)
           end)
        ks acc = Ok rap ->
  forall routeId,
    dict_get routeId rap
    = if existsb (String.eqb routeId) ks then
        match dict_get routeId ras with
        | Some l => if list_contains sid l
                    then Some (client.positions sid l)
                    else dict_get routeId acc
        | None => dict_get routeId acc
        end
      else dict_get routeId acc.
Proof.
  intros Hid. revert acc; induction ks as [|k ks IH]; simpl; intros acc H rid.
  - injection H as <-. reflexivity.
  - apply bind_Ok in H as (acc' & Hstep & H).
    destruct (dict_get k ras) as [l|] eqn:Ek; [|discriminate].
    rewrite Hid in Hstep. cbn [bind ret] in Hstep.
    rewrite (IH acc' H rid).
    destruct (String.eqb rid k) eqn:E; simpl.
    + apply String.eqb_eq in E; subst k. rewrite Ek.
      destruct (list_contains sid l); simpl in Hstep; injection Hstep as <-.
      * rewrite dict_get_set, String.eqb_refl.
        destruct (existsb (String.eqb rid) ks); reflexivity.
      * destruct (existsb (String.eqb rid) ks); reflexivity.
    + assert (Hacc' : dict_get rid acc' = dict_get rid acc).
      { destruct (list_contains sid l); simpl in Hstep;
          injection Hstep as <-; [|reflexivity].
        rewrite dict_get_set, E. reflexivity. }
      rewrite Hacc'. reflexivity.
Qed.

Lemma build_routesAndPositions_get
  (ras : list (string * list value)) (d : list (string * value))
  (sid : value) (rap : list (string * list nat)) (routeId : string) :
  dict_get "id" d = Some sid ->
  client.build_routesAndPositions ras (VDict d) = Ok rap ->
  dict_get routeId rap
  = match dict_get routeId ras with
    | Some l => if list_contains sid l then Some (client.positions sid l)
                else None
    | None => None
    end.
Proof.
  intros Hid H. unfold client.build_routesAndPositions in H.
  rewrite (build_routesAndPositions_loop ras d sid _ [] rap Hid H routeId).
  rewrite existsb_keys. unfold dict_mem.
  destruct (dict_get routeId ras); reflexivity.
Qed.

(** A stop that is returned comes from a record, a dict, with an [id]. *)
Lemma getStops_stop_Ok (system : TransportationSystem.t)
  (ras : list (string * list value)) (stop : value) (s : Stop.t) :
  client.getStops_stop system ras stop = Ok s ->
  exists d sid,
    stop = VDict d /\ dict_get "id" d = Some sid /\ Stop.id s = sid /\
    client.build_routesAndPositions ras (VDict d)
    = Ok (Stop.routesAndPositions s).
Proof.
  unfold client.getStops_stop. intros H.
  apply bind_Ok in H as (rap & Hrap & H).
  apply bind_Ok in H as (stop' & Hdef & H).
  apply bind_Ok in H as (id & Hid & H).
  inv_binds H. injection H as <-. simpl.
  destruct stop as [| | | | | |d];
    try (apply default_items_not_dict in Hdef; [|discriminate];
         subst stop'; discriminate Hid).
  rewrite default_items_dict in Hdef.
  assert (Hstop' : stop' = VDict (with_defaults ["userId"; "radius"] d))
    by congruence.
  subst stop'. unfold py_getitem in Hid. rewrite with_defaults_get in Hid.
  exists d, id. split; [reflexivity|].
  destruct (dict_get "id" d) as [v|] eqn:E.
  - injection Hid as <-. auto.
  - discriminate Hid.
Qed.

(** *** Reading a route back from the stops *)

Lemma list_max_In (a : nat) (l : list nat) : In a l -> a <= list_max l.
Proof.
  intros H.
  assert (Hall : Forall (fun k => k <= list_max l) l)
    by (apply list_max_le; lia).
  rewrite Forall_forall in Hall. auto.
Qed.

Lemma Forall2_flat_map_seq {A B} (R : A -> B -> Prop) (g : nat -> list B)
  (l : list A) (n : nat) :
  (forall i x, nth_error l i = Some x -> exists y, g (n + i) = [y] /\ R x y) ->
  Forall2 R l (flat_map g (seq n (List.length l))).
Proof.
  revert n; induction l as [|a l IH]; intros n H; simpl; [constructor|].
  destruct (H 0 a eq_refl) as (y & Hy & HR).
  rewrite Nat.add_0_r in Hy. rewrite Hy. simpl. constructor; [exact HR|].
  apply IH. intros i x Hi.
  destruct (H (S i) x Hi) as (y' & Hy' & HR').
  exists y'. rewrite <- Hy'. split; [f_equal; lia | exact HR'].
Qed.

(** Pairs that say of every position of [l], and of no other, a value equal
    to the one [l] holds there, give [l] back. *)
Lemma reconstruct_from_pairs (pairs : list (nat * value)) (l : list value) :
  (forall p y, In (p, y) pairs ->
               exists x, nth_error l p = Some x /\ py_eq x y = true) ->
  (forall p x, nth_error l p = Some x -> exists y, In (p, y) pairs) ->
  Forall2 (fun x y => py_eq x y = true) l
    (flat_map (fun i =>
                 match find (fun pr => Nat.eqb (fst pr) i) pairs with
                 | Some (_, x) => [x]
                 | None => []
                 end)
              (seq 0 (list_max (map (fun pr => S (fst pr)) pairs)))).
Proof.
  intros Hsound Hcomplete.
  assert (Hmax : list_max (map (fun pr => S (fst pr)) pairs) = List.length l).
  { apply Nat.le_antisymm.
    - apply list_max_le, Forall_forall. intros k Hk.
      apply in_map_iff in Hk as ([p y] & <- & Hin).
      destruct (Hsound p y Hin) as (x & Hx & _). simpl.
      apply Nat.le_succ_l, nth_error_Some. congruence.
    - destruct (List.length l) as [|m] eqn:Hlen; [lia|].
      destruct (nth_error l m) as [x|] eqn:Hm.
      + destruct (Hcomplete m x Hm) as (y & Hin).
        apply list_max_In, in_map_iff. exists (m, y). auto.
      + apply nth_error_None in Hm. lia. }
  rewrite Hmax. apply Forall2_flat_map_seq. intros i x Hi. simpl.
  destruct (Hcomplete i x Hi) as (y & Hin).
  destruct (find (fun pr => Nat.eqb (fst pr) i) pairs) as [[p y']|] eqn:Hf.
  - apply find_some in Hf as (Hin' & Hp). simpl in Hp.
    apply Nat.eqb_eq in Hp; subst p.
    destruct (Hsound i y' Hin') as (x' & Hx' & Heq).
    exists y'. split; [reflexivity|]. congruence.
  - apply (find_none _ _ Hf) in Hin. simpl in Hin.
    rewrite Nat.eqb_refl in Hin. discriminate.
Qed.

Lemma recorded_In (routeId : string) (allStops : list Stop.t) (p : nat)
  (y : value) :
  In (p, y) (recorded routeId allStops)
  <-> exists stop ps,
        In stop allStops /\ Stop.id stop = y /\
        dict_get routeId (Stop.routesAndPositions stop) = Some ps /\ In p ps.
Proof.
  unfold recorded. rewrite in_flat_map. split.
  - intros (stop & Hin & H).
    destruct (dict_get routeId (Stop.routesAndPositions stop)) as [ps|] eqn:E;
      [|contradiction].
    apply in_map_iff in H as (p' & Hp & Hin'). injection Hp as -> <-.
    exists stop, ps. auto.
  - intros (stop & ps & Hin & <- & E & Hp). exists stop. split; [exact Hin|].
    rewrite E. apply in_map_iff. exists p. auto.
Qed.

Lemma items_or_empty_Ok (v : value) (items : list (string * value)) :
  items_or_empty v = Ok items ->
  match v with VDict d => d | _ => [] end = items.
Proof.
  unfold items_or_empty. destruct (py_eq v (VList [])) eqn:E.
  - apply py_eq_empty_list in E; subst v. intros H; injection H as <-.
    reflexivity.
  - destruct v; try discriminate. intros H; injection H as <-. reflexivity.
Qed.

(** What a successful listing says of each stop it returns: the stop has
    the [id] of a record, and for each route its [routesAndPositions] holds
    the positions of that id in the route's stop-id list when there are
    some, and nothing otherwise. *)
Lemma getStops_response_stops (system : TransportationSystem.t)
  (stops : value) (allStops : list Stop.t) :
  NoDup (dict_keys (raw_routes stops)) ->
  client.getStops_response system stops = Ok (Some allStops) ->
  Forall (fun stop =>
            forall routeId,
              dict_get routeId (Stop.routesAndPositions stop)
              = match dict_get routeId (raw_routes stops) with
                | Some route =>
                    if list_contains (Stop.id stop) (stop_ids route)
                    then Some (client.positions (Stop.id stop)
                                                (stop_ids route))
                    else None
                | None => None
                end)
         allStops.
Proof.
  intros Hnd H.
  destruct stops as [| | | | | |top]; try discriminate H.
  destruct (dict_get "routes" top) as [r|] eqn:Hr.
  2:{ unfold client.getStops_response in H.
      change (py_eq (VDict top) VNone) with false in H.
      unfold py_getitem at 1 in H. rewrite Hr in H. discriminate H. }
  destruct (dict_get "stops" top) as [s|] eqn:Hs.
  2:{ unfold client.getStops_response in H.
      change (py_eq (VDict top) VNone) with false in H.
      unfold py_getitem at 1 in H. rewrite Hr in H. cbn [bind ret] in H.
      destruct (py_eq r (VList []));
        cbn [py_setitem bind ret py_getitem] in H;
        rewrite ?dict_get_set in H;
        cbn [String.eqb Ascii.eqb Bool.eqb] in H;
        rewrite Hs in H; discriminate H. }
  rewrite (getStops_response_unfold system top r s Hr Hs) in H.
  apply bind_Ok in H as (routes & Hroutes & H).
  apply bind_Ok in H as (ras & Hras & H).
  apply bind_Ok in H as (records & Hrecords & H).
  apply bind_Ok in H as (l & Hl & H). injection H as <-.
  assert (Hraw : raw_routes (VDict top) = routes).
  { unfold raw_routes, py_getitem. rewrite Hr.
    apply items_or_empty_Ok in Hroutes. destruct r; exact Hroutes. }
  rewrite Hraw in *.
  apply build_routesAndStops_spec in Hras; [|exact Hnd]. subst ras.
  apply mapM_Ok in Hl.
  eapply Forall2_Forall_r; [|exact Hl].
  intros [k stop] st Hst routeId.
  apply getStops_stop_Ok in Hst as (d & sid & -> & Hid & <- & Hrap).
  rewrite (build_routesAndPositions_get _ d (Stop.id st) _ routeId Hid Hrap).
  rewrite dict_get_map.
  destruct (dict_get routeId routes); reflexivity.
Qed.

(** C1, as the code has it.  For a stop listing that is returned (the keys
    of the raw [routes] mapping being distinct, as a dict's are): each list
    in a stop's [routesAndPositions] belongs to a route of the reply and
    holds, in increasing order, exactly the positions at which the route's
    stop-id list, placeholders left out, has a value equal to the stop's id;
    and a route's stop-id list is read back from the stops, up to [==],
    provided each id it lists is the id of one of the stops returned. *)
Theorem getStops_positions_round_trip (system : TransportationSystem.t)
  (stops : value) (allStops : list Stop.t) :
  NoDup (dict_keys (raw_routes stops)) ->
  client.getStops_response system stops = Ok (Some allStops) ->
  (forall stop routeId ps,
      In stop allStops ->
      dict_get routeId (Stop.routesAndPositions stop) = Some ps ->
      exists route,
        dict_get routeId (raw_routes stops) = Some route /\
        StronglySorted lt ps /\
        forall p, In p ps <->
                  exists x, nth_error (stop_ids route) p = Some x
                            /\ py_eq x (Stop.id stop) = true) /\
  (forall routeId route,
      dict_get routeId (raw_routes stops) = Some route ->
      (forall x, In x (stop_ids route) ->
                 exists stop, In stop allStops
                              /\ py_eq x (Stop.id stop) = true) ->
      Forall2 (fun x y => py_eq x y = true)
              (stop_ids route) (reconstruct routeId allStops)).
Proof.
  intros Hnd Hok.
  pose proof (getStops_response_stops system stops allStops Hnd Hok) as Hall.
  rewrite Forall_forall in Hall. split.
  - intros stop routeId ps Hin Hps. rewrite (Hall stop Hin routeId) in Hps.
    destruct (dict_get routeId (raw_routes stops)) as [route|];
      [|discriminate].
    destruct (list_contains (Stop.id stop) (stop_ids route)); [|discriminate].
    injection Hps as <-. exists route. split; [reflexivity|]. split.
    + apply positions_sorted.
    + intros p. apply positions_In.
  - intros routeId route Hroute Hknown. unfold reconstruct.
    apply reconstruct_from_pairs.
    + intros p y Hin.
      apply recorded_In in Hin as (stop & ps & Hin & <- & Hps & Hp).
      rewrite (Hall stop Hin routeId), Hroute in Hps.
      destruct (list_contains (Stop.id stop) (stop_ids route));
        [|discriminate].
      injection Hps as <-. apply positions_In. exact Hp.
    + intros p x Hx.
      destruct (Hknown x (nth_error_In _ _ Hx)) as (stop & Hin & Heq).
      exists (Stop.id stop). apply recorded_In.
      exists stop, (client.positions (Stop.id stop) (stop_ids route)).
      split; [exact Hin|]. split; [reflexivity|]. split.
      * rewrite (Hall stop Hin routeId), Hroute.
        replace (list_contains (Stop.id stop) (stop_ids route)) with true;
          [reflexivity|].
        symmetry. apply list_contains_In. exists x. split; [|exact Heq].
        eapply nth_error_In; eauto.
      * apply positions_In. eauto.
Qed.

Lemma getStops_positions_round_trip_witness :
  (forall stop routeId ps,
      In stop example_stops ->
      dict_get routeId (Stop.routesAndPositions stop) = Some ps ->
      exists route,
        dict_get routeId (raw_routes example_stops_response) = Some route /\
        StronglySorted lt ps /\
        forall p, In p ps <->
                  exists x, nth_error (stop_ids route) p = Some x
                            /\ py_eq x (Stop.id stop) = true) /\
  (forall routeId route,
      dict_get routeId (raw_routes example_stops_response) = Some route ->
      (forall x, In x (stop_ids route) ->
                 exists stop, In stop example_stops
                              /\ py_eq x (Stop.id stop) = true) ->
      Forall2 (fun x y => py_eq x y = true)
              (stop_ids route) (reconstruct routeId example_stops)).
Proof.
  apply (getStops_positions_round_trip example_system example_stops_response
           example_stops).
  - vm_compute. constructor; [intros []|constructor].
  - vm_compute. reflexivity.
Defined.

(** C1 as stated fails on a route that lists a stop no record describes:
    no stop is returned and the route's list cannot be read back. *)
Lemma getStops_round_trip_dangling :
  client.getStops_response example_system dangling_stops_response
  = Ok (Some []) /\
  ~ round_trip dangling_stops_response [].
Proof.
  split; [vm_compute; reflexivity|].
  intros H.
  specialize (H "7" (VList [VStr "Loop"; VStr "#00274c";
                            VList [VInt 0; VStr "s1"]]) eq_refl).
  vm_compute in H. inversion H.
Qed.

(* ================================================================== *)
(** ** Further properties *)
(* ================================================================== *)

(** *** Transport *)

Lemma py_eq_empty_str (v : value) : py_eq v (VStr "") = true <-> v = VStr "".
Proof.
  split; [|intros ->; reflexivity].
  destruct v; simpl; try discriminate.
  intros H. apply String.eqb_eq in H. congruence.
Qed.

(** X1: a reply that is a JSON object is returned unchanged when it has no
    [error] entry or an empty one, and raises the API error, with the reply
    as payload, in every other case. *)
Theorem sendApiRequest_object_reply
  (post : string -> value -> client.reply) (url : string) (body : value)
  (d : list (string * value)) :
  post url body = client.Body (Some (VDict d)) ->
  (no_error d -> client.sendApiRequest post url body = Ok (VDict d)) /\
  (~ no_error d ->
   client.sendApiRequest post url body = Raise (ApiError (VDict d))).
Proof.
  intros H. rewrite (sendApiRequest_object post url body d H).
  unfold no_error. destruct (dict_get "error" d) as [e|] eqn:E.
  - destruct (py_eq e (VStr "")) eqn:Ee.
    + apply py_eq_empty_str in Ee; subst e. split; [reflexivity|].
      intros Hn. exfalso. apply Hn. right. reflexivity.
    + split; [|reflexivity]. intros [Hn|Hn]; [discriminate|].
      injection Hn as ->. discriminate Ee.
  - split; [reflexivity|]. intros Hn. exfalso. apply Hn. left. reflexivity.
Qed.

Lemma sendApiRequest_object_reply_witness :
  (no_error [("all", VList [])] ->
   client.sendApiRequest (always (VDict [("all", VList [])])) "u" VNone
   = Ok (VDict [("all", VList [])])) /\
  (~ no_error [("all", VList [])] ->
   client.sendApiRequest (always (VDict [("all", VList [])])) "u" VNone
   = Raise (ApiError (VDict [("all", VList [])]))).
Proof.
  apply (sendApiRequest_object_reply (always (VDict [("all", VList [])]))
           "u" VNone [("all", VList [])]).
  reflexivity.
Defined.

Lemma getRoutes_response_None (system : TransportationSystem.t) (r : value) :
  client.getRoutes_response system r = Ok None -> r = VNone.
Proof.
  unfold client.getRoutes_response. destruct (py_eq r VNone) eqn:E.
  - intros _. apply py_eq_None. exact E.
  - intros H. inv_binds H. discriminate H.
Qed.

Lemma getStops_response_None (system : TransportationSystem.t) (r : value) :
  client.getStops_response system r = Ok None -> r = VNone.
Proof.
  unfold client.getStops_response. destruct (py_eq r VNone) eqn:E.
  - intros _. apply py_eq_None. exact E.
  - intros H. inv_binds H. discriminate H.
Qed.

Lemma getSystemAlerts_response_None (system : TransportationSystem.t)
  (r : value) :
  client.getSystemAlerts_response system r = Ok None -> r = VNone.
Proof.
  unfold client.getSystemAlerts_response. destruct (py_eq r VNone) eqn:E.
  - intros _. apply py_eq_None. exact E.
  - intros H. inv_binds H. discriminate H.
Qed.

Lemma getVehicles_response_None (system : TransportationSystem.t)
  (r : value) :
  client.getVehicles_response system r = Ok None -> r = VNone.
Proof.
  unfold client.getVehicles_response. destruct (py_eq r VNone) eqn:E.
  - intros _. apply py_eq_None. exact E.
  - intros H. inv_binds H. discriminate H.
Qed.

(** X2: whatever the server replies, no listing function returns [None]
    (nor does [getStops] with [raw] set): the guards on an absent response
    are never taken, since [sendApiRequest] raises where it would have to
    return [None]. *)
Theorem listings_never_return_None
  (post : string -> value -> client.reply) (system : TransportationSystem.t) :
  (forall appVersion amount,
      client.getRoutes post system appVersion amount <> Ok None) /\
  (forall appVersion sA,
      client.getStops post system appVersion sA false <> Ok (inr None) /\
      client.getStops post system appVersion sA true <> Ok (inl VNone)) /\
  (forall appVersion,
      client.getVehicles post system appVersion <> Ok None) /\
  (forall appVersion amount routesAmount,
      client.getSystemAlerts post system appVersion amount routesAmount
      <> Ok None).
Proof.
  repeat split; intros; intros H.
  - unfold client.getRoutes in H. apply bind_Ok in H as (r & Hr & H).
    apply getRoutes_response_None in H; subst r.
    exact (sendApiRequest_never_None post _ _ Hr).
  - unfold client.getStops in H. apply bind_Ok in H as (r & Hr & H).
    apply bind_Ok in H as (l & H & E). injection E as ->.
    apply getStops_response_None in H; subst r.
    exact (sendApiRequest_never_None post _ _ Hr).
  - unfold client.getStops in H. apply bind_Ok in H as (r & Hr & H).
    injection H as ->.
    exact (sendApiRequest_never_None post _ _ Hr).
  - unfold client.getVehicles in H. apply bind_Ok in H as (r & Hr & H).
    apply getVehicles_response_None in H; subst r.
    exact (sendApiRequest_never_None post _ _ Hr).
  - unfold client.getSystemAlerts in H. apply bind_Ok in H as (r & Hr & H).
    apply getSystemAlerts_response_None in H; subst r.
    exact (sendApiRequest_never_None post _ _ Hr).
Qed.



(** *** Looking a system up *)

Lemma find_first {A} (f : A -> bool) (l : list A) (x : A) :
  find f l = Some x ->
  exists l1 l2, l = l1 ++ x :: l2 /\ f x = true
                /\ forall y, In y l1 -> f y = false.
Proof.
  induction l as [|a l IH]; simpl; [discriminate|].
  destruct (f a) eqn:E.
  - intros H; injection H as ->. exists [], l. repeat split; auto.
    intros y [].
  - intros H. destruct (IH H) as (l1 & l2 & -> & Hx & Hl1).
    exists (a :: l1), l2. repeat split; auto.
    intros y [<-|Hy]; auto.
Qed.

(** X4: when the systems are listed, [getSystemFromID] returns the first
    system of the listing that has the id asked for, and [None] exactly when
    no listed system has it. *)
Theorem getSystemFromID_first_match
  (post : string -> value -> client.reply) (id appVersion sortMode : Z)
  (systems : list TransportationSystem.t) :
  client.getSystems post appVersion sortMode = Ok systems ->
  (exists found, client.getSystemFromID post id appVersion sortMode = Ok found) /\
  (forall system,
      client.getSystemFromID post id appVersion sortMode = Ok (Some system) ->
      TransportationSystem.id system = id /\
      exists before after,
        systems = before ++ system :: after /\
        forall other, In other before -> TransportationSystem.id other <> id) /\
  (client.getSystemFromID post id appVersion sortMode = Ok None <->
   forall system, In system systems -> TransportationSystem.id system <> id).
Proof.
  intros H. unfold client.getSystemFromID. rewrite H. cbn [bind ret].
  split; [eauto|]. split.
  - intros system Hf. injection Hf as Hf.
    apply find_first in Hf as (l1 & l2 & -> & Hx & Hl1).
    apply Z.eqb_eq in Hx. split; [exact Hx|].
    exists l1, l2. split; [reflexivity|].
    intros other Hin. apply Z.eqb_neq. apply Hl1. exact Hin.
  - split.
    + intros Hf. injection Hf as Hf. intros system Hin.
      apply Z.eqb_neq. exact (find_none _ _ Hf system Hin).
    + intros Hnone. unfold ret.
      match goal with
      | |- Ok ?o = Ok None => destruct o as [x|] eqn:Hf; [|reflexivity]
      end.
      apply find_some in Hf as (Hin & Hx). apply Z.eqb_eq in Hx.
      exfalso. exact (Hnone x Hin Hx).
Qed.

Lemma getSystemFromID_first_match_witness :
  (exists found,
      client.getSystemFromID
        (always (VDict [("all", VList [example_system_record])])) 1270 2 1
      = Ok found) /\
  (forall system,
      client.getSystemFromID
        (always (VDict [("all", VList [example_system_record])])) 1270 2 1
      = Ok (Some system) ->
      TransportationSystem.id system = 1270%Z /\
      exists before after,
        [example_listed_system] = before ++ system :: after /\
        forall other, In other before ->
                      TransportationSystem.id other <> 1270%Z) /\
  (client.getSystemFromID
     (always (VDict [("all", VList [example_system_record])])) 1270 2 1
   = Ok None <->
   forall system, In system [example_listed_system] ->
                  TransportationSystem.id system <> 1270%Z).
Proof.
  apply (getSystemFromID_first_match
           (always (VDict [("all", VList [example_system_record])]))
           1270%Z 2%Z 1%Z [example_listed_system]).
  vm_compute. reflexivity.
Defined.

(** *** System records *)

Lemma blank_idempotent (v : value) : blank (blank v) = blank v.
Proof.
  unfold blank. destruct (py_eq v (VStr "")) eqn:E; [reflexivity|].
  rewrite E. reflexivity.
Qed.

(** The loop over [system.keys()] blanks every value of the record and
    never raises. *)
Lemma blank_loop_dict (parameters : list string) (cur : list (string * value)) :
  (forall k, In k parameters -> dict_get k cur <> None) ->
  exists d',
    foldM (fun system parameter =>
             v <- py_getitem system parameter ;;
             if py_eq v (VStr "") then py_setitem system parameter VNone
             else ret system)
          parameters (VDict cur) = Ok (VDict d') /\
    forall k, dict_get k d'
              = if existsb (String.eqb k) parameters
                then option_map blank (dict_get k cur)
                else dict_get k cur.
Proof.
  revert cur; induction parameters as [|p ps IH]; intros cur Hkeys.
  - exists cur. split; reflexivity.
  - destruct (dict_get p cur) as [v|] eqn:Ep;
      [|exfalso; apply (Hkeys p); [left; reflexivity | exact Ep]].
    set (cur' := if py_eq v (VStr "") then dict_set p VNone cur else cur).
    assert (Hcur' : forall k, dict_get k cur'
                              = if String.eqb k p then Some (blank v)
                                else dict_get k cur).
    { intros k. unfold cur', blank.
      destruct (py_eq v (VStr "")).
      - apply dict_get_set.
      - destruct (String.eqb k p) eqn:E; [|reflexivity].
        apply String.eqb_eq in E; subst. exact Ep. }
    destruct (IH cur') as (d' & Hloop & Hd').
    { intros k Hk. rewrite Hcur'. destruct (String.eqb k p); [discriminate|].
      apply Hkeys. right. exact Hk. }
    exists d'. split.
    + simpl. rewrite Ep. cbn [bind ret].
      unfold cur' in Hloop. destruct (py_eq v (VStr "")); exact Hloop.
    + intros k. rewrite Hd', Hcur'. simpl.
      destruct (String.eqb k p) eqn:E; simpl.
      * apply String.eqb_eq in E; subst k. rewrite Ep. simpl.
        rewrite blank_idempotent.
        destruct (existsb (String.eqb p) ps); reflexivity.
      * reflexivity.
Qed.

Lemma blank_loop_record (d : list (string * value)) :
  exists d',
    foldM (fun system parameter =>
             v <- py_getitem system parameter ;;
             if py_eq v (VStr "") then py_setitem system parameter VNone
             else ret system)
          (dict_keys d) (VDict d) = Ok (VDict d') /\
    forall k, dict_get k d' = option_map blank (dict_get k d).
Proof.
  destruct (blank_loop_dict (dict_keys d) d) as (d' & Hloop & Hd').
  - intros k Hk Hnone. apply dict_get_None_keys in Hnone. contradiction.
  - exists d'. split; [exact Hloop|]. intros k. rewrite Hd'.
    rewrite existsb_keys. unfold dict_mem.
    destruct (dict_get k d); reflexivity.
Qed.

Lemma defaulted_norm (keys : list string) (d d' : list (string * value))
  (k : string) :
  (forall k, dict_get k d' = option_map blank (dict_get k d)) ->
  existsb (String.eqb k) keys = true ->
  py_getitem (VDict (with_defaults keys d')) k = Ok (norm d k).
Proof.
  intros Hd' Hk. rewrite with_defaults_field by exact Hk.
  unfold field, norm. rewrite Hd'. destruct (dict_get k d); reflexivity.
Qed.

Lemma defaulted_required (keys : list string) (d d' : list (string * value))
  (k : string) :
  (forall k, dict_get k d' = option_map blank (dict_get k d)) ->
  existsb (String.eqb k) keys = false ->
  py_getitem (VDict (with_defaults keys d')) k = required d k.
Proof.
  intros Hd' Hk. unfold py_getitem, required.
  rewrite with_defaults_get, Hd', Hk. destruct (dict_get k d); reflexivity.
Qed.

(** The two in-place loops of [getSystems] come to reading every field of
    the record through [norm] or [required]. *)
Lemma getSystems_system_dict (d : list (string * value)) :
  client.getSystems_system (VDict d) = system_of_record d.
Proof.
  unfold client.getSystems_system. simpl py_keys. cbn [bind ret].
  destruct (blank_loop_record d) as (d' & Hloop & Hd').
  rewrite Hloop. cbn [bind]. rewrite default_keys_dict. cbn [bind].
  rewrite !(defaulted_required _ d d' _ Hd') by reflexivity.
  rewrite !(defaulted_norm _ d d' _ Hd') by reflexivity.
  reflexivity.
Qed.

Lemma bind_Raise {A B} (c : result A) (k : A -> result B) (e : exn) :
  bind c k = Raise e -> c = Raise e \/ exists a, c = Ok a /\ k a = Raise e.
Proof.
  destruct c as [a|e']; simpl; intros H; [right; eauto | left; congruence].
Qed.

Lemma check_int_Ok (x : value) (n : Z) :
  TransportationSystem.check_int x = Ok n <-> x = VInt n.
Proof.
  split; [|intros ->; reflexivity].
  destruct x; simpl; try discriminate. intros H; injection H as ->.
  reflexivity.
Qed.

Lemma check_opt_str_Ok (x : value) (o : option string) :
  TransportationSystem.check_opt_str x = Ok o <-> x = of_opt_str o.
Proof.
  split; [|intros ->; destruct o; reflexivity].
  destruct x; simpl; try discriminate; intros H; injection H as <-;
    reflexivity.
Qed.

Lemma check_opt_bool_Ok (x : value) (o : option bool) :
  TransportationSystem.check_opt_bool x = Ok o <-> x = of_opt_bool o.
Proof.
  split; [|intros ->; destruct o; reflexivity].
  destruct x; simpl; try discriminate; intros H; injection H as <-;
    reflexivity.
Qed.

Lemma check_opt_int_Ok (x : value) (o : option Z) :
  TransportationSystem.check_opt_int x = Ok o <-> x = of_opt_int o.
Proof.
  split; [|intros ->; destruct o; reflexivity].
  destruct x; simpl; try discriminate; intros H; injection H as <-;
    reflexivity.
Qed.

(** X5: the constructor of [TransportationSystem] succeeds exactly on
    arguments of the asserted types, [id] an [int] (not a [bool]), the
    others of their type or [None], and the instance then holds every
    argument; when it fails it is with an [AssertionError]. *)
Theorem TransportationSystem_init_checks
  (id name username goAgencyName email goTestMode name2 homepage logo
   goRoutePlannerEnabled goColor goSupportEmail goSharedCode
   goAuthenticationType : value) :
  (forall t,
      TransportationSystem.init id name username goAgencyName email
        goTestMode name2 homepage logo goRoutePlannerEnabled goColor
        goSupportEmail goSharedCode goAuthenticationType = Ok t
      <->
      id = VInt (TransportationSystem.id t) /\
      name = of_opt_str (TransportationSystem.name t) /\
      username = of_opt_str (TransportationSystem.username t) /\
      goAgencyName = of_opt_str (TransportationSystem.goAgencyName t) /\
      email = of_opt_str (TransportationSystem.email t) /\
      goTestMode = of_opt_bool (TransportationSystem.goTestMode t) /\
      name2 = of_opt_bool (TransportationSystem.name2 t) /\
      homepage = of_opt_str (TransportationSystem.homepage t) /\
      logo = of_opt_bool (TransportationSystem.logo t) /\
      goRoutePlannerEnabled
      = of_opt_bool (TransportationSystem.goRoutePlannerEnabled t) /\
      goColor = of_opt_str (TransportationSystem.goColor t) /\
      goSupportEmail = of_opt_str (TransportationSystem.goSupportEmail t) /\
      goSharedCode = of_opt_int (TransportationSystem.goSharedCode t) /\
      goAuthenticationType
      = of_opt_bool (TransportationSystem.goAuthenticationType t)) /\
  (forall e,
      TransportationSystem.init id name username goAgencyName email
        goTestMode name2 homepage logo goRoutePlannerEnabled goColor
        goSupportEmail goSharedCode goAuthenticationType = Raise e ->
      e = AssertionError).
Proof.
  split.
  - intros t. split.
    + unfold TransportationSystem.init. intros H. inv_binds H.
      injection H as <-. simpl.
      repeat match goal with
             | Hc : TransportationSystem.check_int _ = Ok _ |- _ =>
                 apply check_int_Ok in Hc
             | Hc : TransportationSystem.check_opt_str _ = Ok _ |- _ =>
                 apply check_opt_str_Ok in Hc
             | Hc : TransportationSystem.check_opt_bool _ = Ok _ |- _ =>
                 apply check_opt_bool_Ok in Hc
             | Hc : TransportationSystem.check_opt_int _ = Ok _ |- _ =>
                 apply check_opt_int_Ok in Hc
             end.
      repeat split; assumption.
    + intros (H1 & H2 & H3 & H4 & H5 & H6 & H7 & H8 & H9 & H10 & H11 & H12
              & H13 & H14).
      subst. unfold TransportationSystem.init.
      rewrite (proj2 (check_int_Ok _ _) eq_refl).
      rewrite !(proj2 (check_opt_str_Ok _ _) eq_refl).
      rewrite !(proj2 (check_opt_bool_Ok _ _) eq_refl).
      rewrite !(proj2 (check_opt_int_Ok _ _) eq_refl).
      destruct t. reflexivity.
  - intros e H. unfold TransportationSystem.init in H.
    repeat (apply bind_Raise in H;
            destruct H as [H | (? & _ & H)];
            [match type of H with
             | _ ?x = Raise _ =>
                 destruct x; simpl in H; try discriminate H;
                 injection H as <-; reflexivity
             end|]).
    discriminate H.
Qed.

Lemma blank_text (v : value) (o : option string) :
  TransportationSystem.check_opt_str (blank v) = Ok o ->
  o = match v with
      | VStr s => if String.eqb s "" then None else Some s
      | _ => None
      end.
Proof.
  unfold blank. destruct v; simpl; try discriminate;
    try (intros H; injection H as <-; reflexivity).
  destruct (String.eqb s ""); simpl; intros H; injection H as <-; reflexivity.
Qed.

Lemma norm_text (d : list (string * value)) (k : string) (o : option string) :
  TransportationSystem.check_opt_str (norm d k) = Ok o -> o = text_field d k.
Proof.
  unfold norm, text_field. destruct (dict_get k d) as [v|].
  - apply blank_text.
  - intros H; injection H as <-. reflexivity.
Qed.

Lemma required_text (d : list (string * value)) (k : string) (v : value)
  (o : option string) :
  required d k = Ok v ->
  TransportationSystem.check_opt_str v = Ok o -> o = text_field d k.
Proof.
  unfold required, text_field. destruct (dict_get k d) as [v0|];
    [|discriminate].
  intros H; injection H as <-. apply blank_text.
Qed.

Lemma py_int_blank (v : value) (n : Z) :
  py_int (blank v) = Ok n -> py_int v = Ok n.
Proof.
  unfold blank. destruct (py_eq v (VStr "")); [discriminate | auto].
Qed.

Lemma bool_int_norm (d : list (string * value)) (k : string) (b : value)
  (o : option bool) :
  client.bool_int (norm d k) = Ok b ->
  TransportationSystem.check_opt_bool b = Ok o ->
  flag_reads d k o.
Proof.
  unfold client.bool_int, norm, flag_reads. intros H Hc.
  apply bind_Ok in H as (n & Hn & H). injection H as <-.
  injection Hc as <-.
  destruct (dict_get k d) as [v|]; [|discriminate Hn].
  exists v, n. split; [reflexivity|]. split; [|reflexivity].
  apply py_int_blank. exact Hn.
Qed.

(** Every attribute of a system that [getSystems] builds from a record. *)
Lemma system_of_record_Ok (d : list (string * value))
  (t : TransportationSystem.t) :
  system_of_record d = Ok t ->
  (exists v n, dict_get "id" d = Some v /\ py_int v = Ok n
               /\ TransportationSystem.id t = n) /\
  (TransportationSystem.name t = text_field d "fullname" /\
   TransportationSystem.username t = text_field d "username" /\
   TransportationSystem.goAgencyName t = text_field d "goAgencyName" /\
   TransportationSystem.email t = text_field d "email" /\
   TransportationSystem.homepage t = text_field d "homepage" /\
   TransportationSystem.goColor t = text_field d "goColor" /\
   TransportationSystem.goSupportEmail t = text_field d "goSupportEmail") /\
  (flag_reads d "goTestMode" (TransportationSystem.goTestMode t) /\
   flag_reads d "name2" (TransportationSystem.name2 t) /\
   flag_reads d "logo" (TransportationSystem.logo t) /\
   flag_reads d "goRoutePlannerEnabled"
     (TransportationSystem.goRoutePlannerEnabled t) /\
   flag_reads d "goAuthenticationType"
     (TransportationSystem.goAuthenticationType t)) /\
  client.toIntInclNone (norm d "goSharedCode")
  = Ok (of_opt_int (TransportationSystem.goSharedCode t)).
Proof.
  unfold system_of_record. intros H.
  apply bind_Ok in H as (id & Hid & H).
  apply bind_Ok in H as (name & Hname & H).
  apply bind_Ok in H as (username & Husername & H).
  apply bind_Ok in H as (goTestMode & HgoTestMode & H).
  apply bind_Ok in H as (name2 & Hname2 & H).
  apply bind_Ok in H as (logo & Hlogo & H).
  apply bind_Ok in H as (planner & Hplanner & H).
  apply bind_Ok in H as (shared & Hshared & H).
  apply bind_Ok in H as (auth & Hauth & H).
  unfold TransportationSystem.init in H. inv_binds H. injection H as <-.
  simpl. split; [|split; [|split]].
  - apply bind_Ok in Hid as (v & Hv & Hid).
    apply bind_Ok in Hid as (n & Hn & Hid). injection Hid as <-.
    match goal with
    | Hc : TransportationSystem.check_int (VInt n) = Ok _ |- _ =>
        injection Hc as <-
    end.
    unfold required in Hv. destruct (dict_get "id" d) as [v0|];
      [|discriminate Hv].
    injection Hv as <-. exists v0, n. split; [reflexivity|].
    split; [|reflexivity]. apply py_int_blank. exact Hn.
  - repeat split;
      first [ eapply required_text; eassumption
            | eapply norm_text; eassumption ].
  - repeat split; eapply bool_int_norm; eassumption.
  - rewrite Hshared. f_equal.
    match goal with
    | Hc : TransportationSystem.check_opt_int shared = Ok _ |- _ =>
        apply check_opt_int_Ok in Hc; exact Hc
    end.
Qed.

(** X6: in a system built from a raw record, each text attribute is the
    raw string, or [None] when the field is absent, [None] or the empty
    string: [name] from [fullname], [username], [goAgencyName], [email],
    [homepage], [goColor] and [goSupportEmail]. *)
Theorem getSystems_text_fields (d : list (string * value))
  (t : TransportationSystem.t) :
  client.getSystems_system (VDict d) = Ok t ->
  TransportationSystem.name t = text_field d "fullname" /\
  TransportationSystem.username t = text_field d "username" /\
  TransportationSystem.goAgencyName t = text_field d "goAgencyName" /\
  TransportationSystem.email t = text_field d "email" /\
  TransportationSystem.homepage t = text_field d "homepage" /\
  TransportationSystem.goColor t = text_field d "goColor" /\
  TransportationSystem.goSupportEmail t = text_field d "goSupportEmail".
Proof.
  rewrite getSystems_system_dict. intros H.
  apply system_of_record_Ok in H. tauto.
Qed.

Lemma getSystems_text_fields_witness :
  TransportationSystem.name example_listed_system
  = Some "University of Michigan" /\
  TransportationSystem.homepage example_listed_system = None /\
  TransportationSystem.goColor example_listed_system = None.
Proof.
  destruct (getSystems_text_fields
              [("id", VStr "1270"); ("fullname", VStr "University of Michigan");
               ("username", VStr "umich"); ("goTestMode", VStr "0");
               ("name2", VStr "0"); ("logo", VStr "1"); ("homepage", VStr "");
               ("goRoutePlannerEnabled", VStr "1");
               ("goAuthenticationType", VStr "0"); ("goSharedCode", VStr "42")]
              example_listed_system)
    as (H1 & _ & _ & _ & H5 & H6 & _).
  - vm_compute. reflexivity.
  - rewrite H1, H5, H6. repeat split.
Defined.



(** X8: every system [getSystems] returns has its five flags set, to
    [True] or [False]: none of them is ever [None]. *)
Theorem getSystems_flags_are_set
  (post : string -> value -> client.reply) (appVersion sortMode : Z)
  (systems : list TransportationSystem.t) :
  client.getSystems post appVersion sortMode = Ok systems ->
  Forall (fun t =>
            TransportationSystem.goTestMode t <> None /\
            TransportationSystem.name2 t <> None /\
            TransportationSystem.logo t <> None /\
            TransportationSystem.goRoutePlannerEnabled t <> None /\
            TransportationSystem.goAuthenticationType t <> None)
         systems.
Proof.
  unfold client.getSystems. intros H.
  apply bind_Ok in H as (r & _ & H). unfold client.getSystems_response in H.
  destruct (py_eq r VNone).
  - injection H as <-. constructor.
  - inv_binds H. apply mapM_Ok in H.
    eapply Forall2_Forall_r; [|exact H].
    intros x t Hx.
    destruct x as [| | | | | |d]; try discriminate Hx.
    rewrite getSystems_system_dict in Hx.
    apply system_of_record_Ok in Hx
      as (_ & _ & (H1 & H2 & H3 & H4 & H5) & _).
    repeat split;
      match goal with
      | Hf : flag_reads _ ?k ?o |- ?o <> None =>
          destruct Hf as (? & ? & _ & _ & ->); discriminate
      end.
Qed.

Lemma getSystems_flags_are_set_witness :
  Forall (fun t =>
            TransportationSystem.goTestMode t <> None /\
            TransportationSystem.name2 t <> None /\
            TransportationSystem.logo t <> None /\
            TransportationSystem.goRoutePlannerEnabled t <> None /\
            TransportationSystem.goAuthenticationType t <> None)
         [example_listed_system].
Proof.
  apply (getSystems_flags_are_set
           (always (VDict [("all", VList [example_system_record])]))
           2%Z 1%Z).
  vm_compute. reflexivity.
Defined.

(** *** Route records *)


(** *** Alert messages *)

Lemma bind_ret_l {A B} (a : A) (k : A -> result B) : bind (Ok a) k = k a.
Proof. reflexivity. Qed.

Lemma bind_raise_l {A B} (e : exn) (k : A -> result B) :
  bind (Raise e) k = Raise e.
Proof. reflexivity. Qed.

Lemma getitem_Some (d : list (string * value)) (k : string) (v : value) :
  dict_get k d = Some v -> py_getitem (VDict d) k = Ok v.
Proof. intros H. unfold py_getitem. rewrite H. reflexivity. Qed.

Lemma getitem_None (d : list (string * value)) (k : string) :
  dict_get k d = None -> py_getitem (VDict d) k = Raise KeyError.
Proof. intros H. unfold py_getitem. rewrite H. reflexivity. Qed.

Lemma alert_key_missing (system : TransportationSystem.t)
  (d : list (string * value)) (k : string) :
  In k alertKeys -> dict_get k d = None ->
  (if forallb (fun k => dict_mem k d) alertKeys
   then Ok (alert_of_record system d)
   else Raise KeyError) = Raise KeyError.
Proof.
  intros Hin Hk.
  destruct (forallb (fun k => dict_mem k d) alertKeys) eqn:E; [|reflexivity].
  rewrite forallb_forall in E. specialize (E k Hin).
  unfold dict_mem in E. rewrite Hk in E. discriminate E.
Qed.

Ltac read_key system d k :=
  let v := fresh "v" in
  let E := fresh "E" in
  destruct (dict_get k d) as [v|] eqn:E;
  [ rewrite (getitem_Some d k v E), bind_ret_l
  | rewrite (getitem_None d k E), bind_raise_l; symmetry;
    apply (alert_key_missing system d k);
    [unfold alertKeys; simpl; tauto | exact E] ].

(** X10: nothing is defaulted in an alert message: a message that has the
    twenty-eight keys read gives the alert that holds the raw fields, among
    them [userId] as [systemId] and [created], [from], [to] as
    [dateTimeCreated], [dateTimeFrom], [dateTimeTo]; a message that lacks
    one of them raises a [KeyError]; an element of [msgs] that is not a
    record raises a [TypeError]. *)
Theorem getSystemAlerts_msg_record (system : TransportationSystem.t) :
  (forall d,
      client.getSystemAlerts_msg system (VDict d)
      = if forallb (fun k => dict_mem k d) alertKeys
        then Ok (alert_of_record system d)
        else Raise KeyError) /\
  (forall x, (forall d, x <> VDict d) ->
             client.getSystemAlerts_msg system x = Raise TypeError).
Proof.
  split.
  - intros d. unfold client.getSystemAlerts_msg.
    read_key system d "id". read_key system d "userId".
    read_key system d "routeId". read_key system d "name".
    read_key system d "html". read_key system d "archive".
    read_key system d "important". read_key system d "created".
    read_key system d "from". read_key system d "to".
    read_key system d "asPush". read_key system d "gtfs".
    read_key system d "gtfsAlertCauseId".
    read_key system d "gtfsAlertEffectId". read_key system d "gtfsAlertUrl".
    read_key system d "gtfsAlertHeaderText".
    read_key system d "gtfsAlertDescriptionText".
    read_key system d "routeGroupId". read_key system d "createdUtc".
    read_key system d "authorId". read_key system d "author".
    read_key system d "updated". read_key system d "updateAuthorId".
    read_key system d "updateAuthor". read_key system d "createdF".
    read_key system d "fromF". read_key system d "fromOk".
    read_key system d "toOk".
    replace (forallb (fun k => dict_mem k d) alertKeys) with true.
    + unfold alert_of_record, field, SystemAlert.init, ret.
      repeat match goal with
             | E : dict_get _ d = Some _ |- _ => rewrite E; clear E
             end.
      reflexivity.
    + symmetry. apply forallb_forall. intros k Hk.
      unfold alertKeys in Hk. simpl in Hk. unfold dict_mem.
      repeat (destruct Hk as [<-|Hk];
              [match goal with
               | E : dict_get ?k d = Some _ |- context [dict_get ?k d] =>
                   rewrite E; reflexivity
               end|]).
      contradiction.
  - intros x Hx. destruct x; try reflexivity. exfalso. eapply Hx; eauto.
Qed.

(** *** Stop listings, further *)










(** *** Well-formed stop listings *)


Lemma stops_of_route_loop_total (routeId : string) (entries : list value)
  (cur : list (string * list value)) :
  forallb wf_entry entries = true ->
  dict_get routeId cur <> None ->
  exists res,
    foldM (fun routesAndStops stop =>
             if py_eq stop (VInt 0%Z) then ret routesAndStops
             else
               x <- py_index stop 1 ;;
               client.append_at routeId x routesAndStops)
          entries cur = Ok res.
Proof.
  revert cur; induction entries as [|e entries IH]; simpl; intros cur Hwf Hcur.
  - eauto.
  - apply andb_true_iff in Hwf as (He & Hwf). unfold wf_entry in He.
    destruct (py_eq e (VInt 0%Z)); simpl.
    + apply IH; assumption.
    + simpl in He. destruct e as [| | | | |[|a [|b l]]|]; try discriminate He.
      simpl. unfold client.append_at.
      destruct (dict_get routeId cur) as [l0|] eqn:E; [|contradiction].
      simpl. apply IH; [exact Hwf|].
      rewrite dict_get_set, String.eqb_refl. discriminate.
Qed.

Lemma build_routesAndStops_total (routes : list (string * value))
  (acc : list (string * list value)) :
  forallb (fun kr => wf_route (snd kr)) routes = true ->
  exists ras,
    foldM (fun routesAndStops '(routeId, route) =>
             let routesAndStops := dict_set routeId [] routesAndStops in
             entries <- py_slice_from route 2 ;;
             foldM (fun routesAndStops stop =>
                      if py_eq stop (VInt 0%Z) then ret routesAndStops
                      else
                        x <- py_index stop 1 ;;
                        client.append_at routeId x routesAndStops)
                   entries routesAndStops)
          routes acc = Ok ras.
Proof.
  revert acc; induction routes as [|[rid route] routes IH]; simpl;
    intros acc Hwf.
  - eauto.
  - apply andb_true_iff in Hwf as (Hroute & Hwf).
    destruct route as [| | | | |l|]; try discriminate Hroute.
    simpl in Hroute. cbn [py_slice_from bind ret].
    destruct (stops_of_route_loop_total rid (skipn 2 l)
                (dict_set rid [] acc) Hroute) as (res & Hres).
    { rewrite dict_get_set, String.eqb_refl. discriminate. }
    rewrite Hres. cbn [bind]. apply IH. exact Hwf.
Qed.





(** X14: on a raw [routes] mapping that is well formed, [routesAndStops]
    is built without error and maps each route id, in the order of the
    mapping, to the stop ids the route lists, placeholders left out. *)
Theorem build_routesAndStops_well_formed (routes : list (string * value)) :
  NoDup (dict_keys routes) ->
  forallb (fun kr => wf_route (snd kr)) routes = true ->
  client.build_routesAndStops routes
  = Ok (map (fun '(routeId, route) => (routeId, stop_ids route)) routes).
Proof.
  intros Hnd Hwf.
  destruct (build_routesAndStops_total routes [] Hwf) as (ras & Hras).
  change (client.build_routesAndStops routes = Ok ras) in Hras.
  rewrite Hras. f_equal.
  apply build_routesAndStops_spec; assumption.
Qed.

Lemma build_routesAndStops_well_formed_witness :
  client.build_routesAndStops example_routes_mapping
  = Ok (map (fun '(routeId, route) => (routeId, stop_ids route))
            example_routes_mapping).
Proof.
  apply (build_routesAndStops_well_formed example_routes_mapping).
  - constructor; [intros []|constructor].
  - reflexivity.
Defined.

(** *** Stops of a route, further *)

Lemma system_getStops_system (post : string -> value -> client.reply)
  (system : TransportationSystem.t) (allStops : list Stop.t) :
  client.system_getStops post system = Ok (Some allStops) ->
  Forall (fun s => Stop.system s = Some system) allStops.
Proof.
  unfold client.system_getStops, client.getStops. intros H.
  apply bind_Ok in H as (r & Hr & H).
  apply bind_Ok in Hr as (reply & _ & Hr).
  apply bind_Ok in Hr as (l & Hl & Hr). injection Hr as <-.
  injection H as ->.
  eapply getStops_response_system; eauto.
Qed.

Lemma Route_getStops_Ok (post : string -> value -> client.reply)
  (self : Route.t) (l : list Stop.t) :
  client.Route_getStops post self = Ok l ->
  exists system allStops keep,
    Route.system self = Some system /\
    client.system_getStops post system = Ok (Some allStops) /\
    l = filter keep allStops /\
    forall stop,
      keep stop
      = list_contains (Route.myid self)
          (map VStr (dict_keys (Stop.routesAndPositions stop)))
        || list_contains (Route.id self)
             (map VStr (dict_keys (Stop.routesAndPositions stop)))
        || list_contains (Route.groupId self)
             (map VStr (dict_keys (Stop.routesAndPositions stop))).
Proof.
  unfold client.Route_getStops, Route.getStops. intros H.
  destruct (Route.system self) as [system|]; [|discriminate H].
  apply bind_Ok in H as (o & Ho & H).
  destruct o as [allStops|]; [|discriminate H].
  injection H as <-.
  exists system, allStops.
  exists (fun stop =>
            list_contains (Route.myid self)
              (map VStr (dict_keys (Stop.routesAndPositions stop)))
            || list_contains (Route.id self)
                 (map VStr (dict_keys (Stop.routesAndPositions stop)))
            || list_contains (Route.groupId self)
                 (map VStr (dict_keys (Stop.routesAndPositions stop)))).
  split; [reflexivity|]. split; [exact Ho|]. split; [|reflexivity].
  match goal with
  | |- _ = filter ?keep _ =>
      change (fold_left (fun acc x => if keep x then acc ++ [x] else acc)
                        allStops [] = filter keep allStops)
  end.
  rewrite fold_left_keep. reflexivity.
Qed.

(** X15: the stops [Route.getStops] returns are stops of the listing of the
    route's own system, in the order of that listing, and each refers back
    to that system. *)
Theorem Route_getStops_within_system
  (post : string -> value -> client.reply) (self : Route.t)
  (l : list Stop.t) :
  client.Route_getStops post self = Ok l ->
  exists system allStops keep,
    Route.system self = Some system /\
    client.system_getStops post system = Ok (Some allStops) /\
    l = filter keep allStops /\
    Forall (fun s => Stop.system s = Some system) l.
Proof.
  intros H.
  apply Route_getStops_Ok in H as (system & allStops & keep & Hsys & Hall
                                   & -> & _).
  exists system, allStops, keep. repeat split; auto.
  apply system_getStops_system in Hall.
  rewrite Forall_forall in *. intros s Hs. apply filter_In in Hs as (Hs & _).
  auto.
Qed.

Lemma Route_getStops_within_system_witness :
  exists system allStops keep,
    Route.system example_route = Some system /\
    client.system_getStops (always example_stops_response) system
    = Ok (Some allStops) /\
    example_stops = filter keep allStops /\
    Forall (fun s => Stop.system s = Some system) example_stops.
Proof.
  apply (Route_getStops_within_system (always example_stops_response)
           example_route example_stops).
  vm_compute. reflexivity.
Defined.

Lemma not_a_string_never_keyed (x : value) (keys : list string) :
  (forall k, x <> VStr k) -> list_contains x (map VStr keys) = false.
Proof.
  intros Hx. unfold list_contains.
  induction keys as [|k keys IH]; simpl; [reflexivity|].
  rewrite IH, orb_false_r.
  destruct x; try reflexivity. exfalso. eapply Hx; eauto.
Qed.

(** X16: the keys of [routesAndPositions] are strings, so that a route
    none of whose [myid], [id] and [groupId] is a string (numbers, [None])
    is given no stop at all. *)
Theorem Route_getStops_needs_a_string_identifier
  (post : string -> value -> client.reply) (self : Route.t)
  (l : list Stop.t) :
  client.Route_getStops post self = Ok l ->
  (forall k, Route.myid self <> VStr k) ->
  (forall k, Route.id self <> VStr k) ->
  (forall k, Route.groupId self <> VStr k) ->
  l = [].
Proof.
  intros H Hmyid Hid Hgroup.
  apply Route_getStops_Ok in H as (system & allStops & keep & _ & _
                                   & -> & Hkeep).
  induction allStops as [|s allStops IH]; simpl; [reflexivity|].
  rewrite Hkeep, !not_a_string_never_keyed by assumption. exact IH.
Qed.

Lemma Route_getStops_needs_a_string_identifier_witness :
  client.Route_getStops (always example_stops_response)
    (Route.init (VInt 101) (VInt 7) VNone (VStr "Loop") VNone VNone VNone
       VNone VNone VNone VNone VNone VNone VNone VNone VNone VNone VNone VNone
       (VInt 1270) (Some example_system))
  = Ok [].
Proof.
  assert (H : exists l,
             client.Route_getStops (always example_stops_response)
               (Route.init (VInt 101) (VInt 7) VNone (VStr "Loop") VNone VNone
                  VNone VNone VNone VNone VNone VNone VNone VNone VNone VNone
                  VNone VNone VNone (VInt 1270) (Some example_system))
             = Ok l)
    by (eexists; vm_compute; reflexivity).
  destruct H as (l & Hl). rewrite Hl. f_equal.
  apply (Route_getStops_needs_a_string_identifier _ _ l Hl);
    intros k; discriminate.
Defined.

(** *** Replies of another shape *)

(** X17: a reply that is not a JSON object is returned unchanged when it is
    an array or a string in which ["error"] does not occur; in every other
    case, a number, a boolean, [null], or an array or string in which
    ["error"] occurs, [sendApiRequest] raises a [TypeError]. *)
Theorem sendApiRequest_non_object
  (post : string -> value -> client.reply) (url : string) (body : value)
  (response : value) :
  post url body = client.Body (Some response) ->
  (forall d, response <> VDict d) ->
  client.sendApiRequest post url body
  = match py_in_str "error" response with
    | Ok false => Ok response
    | _ => Raise TypeError
    end.
Proof.
  intros H Hd. unfold client.sendApiRequest. rewrite H.
  destruct response; try reflexivity.
  exfalso. eapply Hd; eauto.
Qed.

Lemma sendApiRequest_non_object_witness :
  client.sendApiRequest (always (VList [VStr "error"])) "u" VNone
  = match py_in_str "error" (VList [VStr "error"]) with
    | Ok false => Ok (VList [VStr "error"])
    | _ => Raise TypeError
    end.
Proof.
  apply (sendApiRequest_non_object (always (VList [VStr "error"])) "u" VNone
           (VList [VStr "error"])).
  - reflexivity.
  - intros d. discriminate.
Defined.

(** X18: a route reply that is a mapping without an ["all"] entry is not
    read as a mapping of routes: the loop visits its keys, so that the
    empty mapping gives no route and any other raises an
    [AttributeError]. *)
Theorem getRoutes_flat_mapping (system : TransportationSystem.t)
  (d : list (string * value)) :
  dict_get "all" d = None ->
  client.getRoutes_response system (VDict d)
  = match d with
    | [] => Ok (Some [])
    | _ :: _ => Raise AttributeError
    end.
Proof.
  intros H. unfold client.getRoutes_response.
  change (py_eq (VDict d) VNone) with false. cbv iota.
  unfold py_in_str, dict_mem. rewrite H.
  destruct d as [|[k v] d]; reflexivity.
Qed.

Lemma getRoutes_flat_mapping_witness :
  client.getRoutes_response example_system
    (VDict [("101", example_route_record)])
  = Raise AttributeError.
Proof.
  apply (getRoutes_flat_mapping example_system
           [("101", example_route_record)]).
  reflexivity.
Defined.

(** X19: [getVehicles] needs a [buses] mapping: a reply without [buses]
    raises a [KeyError], and one whose [buses] is an array, the empty array
    included, raises an [AttributeError]; the empty array is not taken for
    an empty mapping as it is in the stop listing. *)
Theorem getVehicles_needs_a_mapping (system : TransportationSystem.t) :
  (forall d, dict_get "buses" d = None ->
             client.getVehicles_response system (VDict d) = Raise KeyError) /\
  (forall vehicles l,
      py_getitem vehicles "buses" = Ok (VList l) ->
      client.getVehicles_response system vehicles = Raise AttributeError).
Proof.
  split.
  - intros d H. unfold client.getVehicles_response.
    change (py_eq (VDict d) VNone) with false. cbv iota.
    rewrite (getitem_None d "buses" H). reflexivity.
  - intros vehicles l H. unfold client.getVehicles_response.
    destruct (py_eq vehicles VNone) eqn:E.
    + apply py_eq_None in E; subst. discriminate H.
    + rewrite H. reflexivity.
Qed.

(** X20: [getStops] needs both collections: a reply without [routes], or
    with [routes] and without [stops], raises a [KeyError], and a [routes]
    that is an array with an element raises an [AttributeError]. *)
Theorem getStops_needs_both_collections (system : TransportationSystem.t)
  (top : list (string * value)) :
  (dict_get "routes" top = None ->
   client.getStops_response system (VDict top) = Raise KeyError) /\
  (forall r, dict_get "routes" top = Some r ->
             dict_get "stops" top = None ->
             client.getStops_response system (VDict top) = Raise KeyError) /\
  (forall x l s, dict_get "routes" top = Some (VList (x :: l)) ->
                 dict_get "stops" top = Some s ->
                 client.getStops_response system (VDict top)
                 = Raise AttributeError).
Proof.
  split; [|split].
  - intros H. unfold client.getStops_response.
    change (py_eq (VDict top) VNone) with false. cbv iota.
    rewrite (getitem_None top "routes" H). reflexivity.
  - intros r Hr Hs. unfold client.getStops_response.
    change (py_eq (VDict top) VNone) with false. cbv iota.
    rewrite (getitem_Some top "routes" r Hr), bind_ret_l.
    destruct (py_eq r (VList [])).
    + cbn [py_setitem]. rewrite bind_ret_l. unfold py_getitem at 1.
      rewrite dict_get_set. cbn [String.eqb Ascii.eqb Bool.eqb].
      rewrite Hs. reflexivity.
    + rewrite bind_ret_l, (getitem_None top "stops" Hs). reflexivity.
  - intros x l s Hr Hs.
    rewrite (getStops_response_unfold system top _ s Hr Hs). reflexivity.
Qed.

(** *** The same properties on the example data *)

Lemma TransportationSystem_init_checks_witness :
  exists e,
    TransportationSystem.init (VStr "1270") VNone VNone VNone VNone VNone
      VNone VNone VNone VNone VNone VNone VNone VNone = Raise e /\
    e = AssertionError.
Proof.
  eexists. split; [reflexivity|].
  apply (proj2 (TransportationSystem_init_checks (VStr "1270") VNone VNone
                  VNone VNone VNone VNone VNone VNone VNone VNone VNone
                  VNone VNone) AssertionError).
  reflexivity.
Defined.


Lemma getSystemAlerts_msg_record_witness :
  client.getSystemAlerts_msg example_system (VStr "msg") = Raise TypeError.
Proof.
  apply (proj2 (getSystemAlerts_msg_record example_system) (VStr "msg")).
  intros d. discriminate.
Defined.

Lemma getVehicles_needs_a_mapping_witness :
  client.getVehicles_response example_system (VDict [("buses", VList [])])
  = Raise AttributeError.
Proof.
  apply (proj2 (getVehicles_needs_a_mapping example_system)
           (VDict [("buses", VList [])]) []).
  reflexivity.
Defined.

Lemma getStops_needs_both_collections_witness :
  client.getStops_response example_system
    (VDict [("routes", VList [VInt 0]); ("stops", VDict [])])
  = Raise AttributeError.
Proof.
  apply (proj2 (proj2 (getStops_needs_both_collections example_system
                         [("routes", VList [VInt 0]); ("stops", VDict [])]))
           (VInt 0) [] (VDict [])); reflexivity.
Defined.
